(** * Auctionator price-database parser: model and checked properties

    Shallow embedding of [parser.py]: the literal locator, the line-by-line
    entity assembler of [parse_lua_file], the record projection done in
    [main], and [convert_copper_to_gold].

    A Python [str] is modelled as a [string]; a character stands for the
    code point of the same number, so the model covers texts whose code
    points are below 256.  Python integers are unbounded and modelled as
    [Z].  A Python [dict] keeps insertion order, which the projected
    [items] list exposes, so a dict is an association list with
    replace-in-place update. *)

From Stdlib Require Import ZArith List Bool Lia Ascii String DecimalString.
Import ListNotations.

Local Open Scope string_scope.
Local Open Scope list_scope.
Local Open Scope Z_scope.

Infix "+:+" := String.append (at level 60, right associativity).

(** ** Characters and string primitives *)

Module Py.

(** The line feed and the double quote, which a literal cannot hold. *)
Definition LF : ascii := "010"%char.
Definition DQ : ascii := "034"%char.
Definition nl : string := String LF EmptyString.
Definition dq : string := String DQ EmptyString.

Definition code (c : ascii) : nat := nat_of_ascii c.

(** [str.isspace] on one character, which is also the class [\s] of [re]
    on a [str] pattern: TAB..CR, FS..US, space, NEL and NBSP. *)
Definition isspace (c : ascii) : bool :=
  let n := code c in
  ((9 <=? n) && (n <=? 13) || (28 <=? n) && (n <=? 32)
   || (n =? 133) || (n =? 160))%nat.

(** The class [\d] of [re]: decimal digits, below 256 only [0]..[9]. *)
Definition isdecimal (c : ascii) : bool :=
  let n := code c in ((48 <=? n) && (n <=? 57))%nat.

(** [str.isdigit] on one character: the decimal digits and the
    superscripts two, three and one. *)
Definition isdigit_char (c : ascii) : bool :=
  let n := code c in
  (isdecimal c || (n =? 178) || (n =? 179) || (n =? 185))%nat.

Fixpoint all_chars (f : ascii -> bool) (s : string) : bool :=
  match s with
  | EmptyString => true
  | String c s' => f c && all_chars f s'
  end.

(** [s.isdigit()]: every character is a digit and there is at least one. *)
Definition isdigit (s : string) : bool :=
  match s with
  | EmptyString => false
  | String _ _ => all_chars isdigit_char s
  end.

(** [s.startswith(c)] for a one-character prefix. *)
Definition startswith_char (c : ascii) (s : string) : bool :=
  match s with
  | String c' _ => Ascii.eqb c' c
  | EmptyString => false
  end.

(** The slice [s[1:]]. *)
Definition drop1 (s : string) : string :=
  match s with
  | String _ s' => s'
  | EmptyString => EmptyString
  end.

(** [s.count(c)] for a one-character needle. *)
Fixpoint count (c : ascii) (s : string) : nat :=
  match s with
  | EmptyString => O
  | String c' s' => ((if Ascii.eqb c' c then 1 else 0) + count c s')%nat
  end.

Fixpoint lstrip (s : string) : string :=
  match s with
  | EmptyString => EmptyString
  | String c s' => if isspace c then lstrip s' else s
  end.

Fixpoint rstrip (s : string) : string :=
  match s with
  | EmptyString => EmptyString
  | String c s' =>
      match rstrip s' with
      | EmptyString => if isspace c then EmptyString else String c EmptyString
      | r => String c r
      end
  end.

(** [s.strip()]. *)
Definition strip (s : string) : string := rstrip (lstrip s).

(** [s.split('\n')]: never empty, one more piece than line feeds. *)
Fixpoint split_nl (s : string) : list string :=
  match s with
  | EmptyString => [EmptyString]
  | String c s' =>
      if Ascii.eqb c LF then EmptyString :: split_nl s'
      else match split_nl s' with
           | l :: ls => String c l :: ls
           | [] => [String c EmptyString]
           end
  end.

Definition digit_value (c : ascii) : Z := Z.of_nat (code c) - 48.

Fixpoint int_acc (acc : Z) (s : string) : Z :=
  match s with
  | EmptyString => acc
  | String c s' => int_acc (10 * acc + digit_value c) s'
  end.

(** [int(s)] on a string of decimal digits; integers are unbounded, and
    the cap that recent interpreters put on the number of digits of one
    conversion is not modelled. *)
Definition int (s : string) : Z := int_acc 0 s.

(** [str(n)], as an f-string renders an integer. *)
Definition str (n : Z) : string := NilZero.string_of_int (Z.to_int n).

(** Truth value of a [str] or [None], and of a dict. *)
Definition truthy_name (o : option string) : bool :=
  match o with
  | Some (String _ _) => true
  | _ => false
  end.

End Py.

(** ** Regular-expression building blocks

    The patterns of the source are sequences of literals, of greedy
    repetitions of a character class and, once, of a lazy repetition of any
    character.  Each greedy repetition is followed by a literal that starts
    outside its class, or ends the pattern, so the only run that can lead
    to a match is the longest one: [span] takes it.  The lazy repetition is
    followed by a literal, so it stops at the first occurrence of that
    literal: [until] finds it. *)

Module Re.

(** Match a literal at the head of [s]; the rest on success. *)
Fixpoint lit (p s : string) : option string :=
  match p with
  | EmptyString => Some s
  | String a p' =>
      match s with
      | String b s' => if Ascii.eqb a b then lit p' s' else None
      | EmptyString => None
      end
  end.

(** Longest run of characters of a class at the head of [s], and the
    rest. *)
Fixpoint span (f : ascii -> bool) (s : string) : string * string :=
  match s with
  | EmptyString => (EmptyString, EmptyString)
  | String c s' =>
      if f c then let (a, b) := span f s' in (String c a, b)
      else (EmptyString, s)
  end.

(** The head of a string fails a class, or there is no head. *)
Definition head_fails (f : ascii -> bool) (s : string) : Prop :=
  match s with
  | EmptyString => True
  | String c _ => f c = false
  end.

(** A class repeated once or more ([+]). *)
Definition plus (f : ascii -> bool) (s : string) : option (string * string) :=
  match span f s with
  | (EmptyString, _) => None
  | (a, b) => Some (a, b)
  end.

(** [re.search]: the match at the leftmost position that has one; the
    position after the last character is tried as well. *)
Fixpoint search {A : Type} (m : string -> option A) (s : string) : option A :=
  match m s with
  | Some r => Some r
  | None =>
      match s with
      | EmptyString => None
      | String _ s' => search m s'
      end
  end.

(** Lazy [.*?] under DOTALL followed by a literal: the text before the
    first occurrence of the literal, and the text after it. *)
Fixpoint until (p s : string) : option (string * string) :=
  match lit p s with
  | Some r => Some (EmptyString, r)
  | None =>
      match s with
      | EmptyString => None
      | String c s' =>
          match until p s' with
          | Some (a, b) => Some (String c a, b)
          | None => None
          end
      end
  end.

End Re.

(** ** Dictionaries with insertion order *)

Definition dict (V : Type) : Type := list (string * V).

Fixpoint dict_get {V : Type} (k : string) (d : dict V) : option V :=
  match d with
  | [] => None
  | (k', v) :: d' => if String.eqb k' k then Some v else dict_get k d'
  end.

(** [d[k] = v]: an existing key keeps its place, a new key goes last. *)
Fixpoint dict_set {V : Type} (k : string) (v : V) (d : dict V) : dict V :=
  match d with
  | [] => [(k, v)]
  | (k', v') :: d' =>
      if String.eqb k' k then (k', v) :: d' else (k', v') :: dict_set k v d'
  end.

Definition dict_keys {V : Type} (d : dict V) : list string := map fst d.

(** Truth value of a dict: non-empty. *)
Definition dict_truthy {V : Type} (d : dict V) : bool :=
  match d with
  | [] => false
  | _ :: _ => true
  end.

(** [d.get(k, default)]. *)
Definition dict_get_default {V : Type} (k : string) (default : V) (d : dict V) : V :=
  match dict_get k d with
  | Some v => v
  | None => default
  end.

(** ** The patterns of [parse_lua_file] *)

Definition START_TOKEN : string := "AUCTIONATOR_PRICE_DATABASE = ".
Definition END_TOKEN : string := "AUCTIONATOR_LAST_SCAN_TIME".
Definition OPEN_KEY : string := "[" +:+ Py.dq.
Definition CLOSE_KEY_ASSIGN : string := Py.dq +:+ "] = ".
Definition CLOSE_KEY_BRACE : string := Py.dq +:+ "] = {".

Definition not_quote (c : ascii) : bool := negb (Ascii.eqb c Py.DQ).

(** [AUCTIONATOR_PRICE_DATABASE = ({.*?})\nAUCTIONATOR_LAST_SCAN_TIME]
    tried at the head of [s]; the result is group 1. *)
Definition database_match_here (s : string) : option string :=
  match Re.lit (START_TOKEN +:+ "{") s with
  | None => None
  | Some r =>
      match Re.until ("}" +:+ Py.nl +:+ END_TOKEN) r with
      | None => None
      | Some (body, _) => Some ("{" +:+ body +:+ "}")
      end
  end.

(** Line 12: the search over the whole content. *)
Definition database_search (content : string) : option string :=
  Re.search database_match_here content.

(** The pattern [\[Q([^Q]+)Q\] = {], where Q stands for the double quote,
    tried at the head of [s]; the result is group 1. *)
Definition key_brace_here (s : string) : option string :=
  match Re.lit OPEN_KEY s with
  | None => None
  | Some r =>
      match Re.plus not_quote r with
      | None => None
      | Some (key, r') =>
          match Re.lit CLOSE_KEY_BRACE r' with
          | None => None
          | Some _ => Some key
          end
      end
  end.

(** Line 27: the realm search over the literal. *)
Definition realm_match (lua_data : string) : option string :=
  Re.search key_brace_here lua_data.

(** Line 38: [re.match] of the same pattern after [\s*], on a line. *)
Definition item_name_match (line : string) : option string :=
  key_brace_here (snd (Re.span Py.isspace line)).

(** The pattern [\[Q<key>Q\] = (\d+)] for a fixed key, tried at the head of
    [s]; the result is group 1. *)
Definition fixed_field_here (key s : string) : option string :=
  match Re.lit (OPEN_KEY +:+ key +:+ CLOSE_KEY_ASSIGN) s with
  | None => None
  | Some r =>
      match Re.plus Py.isdecimal r with
      | None => None
      | Some (v, _) => Some v
      end
  end.

(** Lines 51 and 56. *)
Definition scan_match (line : string) : option string :=
  Re.search (fixed_field_here "lastScan") line.

Definition mr_match (line : string) : option string :=
  Re.search (fixed_field_here "mr") line.

(** The pattern [\[Q(H\d+)Q\] = (\d+)] tried at the head of [s]; the result
    is groups 1 and 2. *)
Definition hist_here (s : string) : option (string * string) :=
  match Re.lit (OPEN_KEY +:+ "H") s with
  | None => None
  | Some r =>
      match Re.plus Py.isdecimal r with
      | None => None
      | Some (ds, r') =>
          match Re.lit CLOSE_KEY_ASSIGN r' with
          | None => None
          | Some r'' =>
              match Re.plus Py.isdecimal r'' with
              | None => None
              | Some (v, _) => Some ("H" +:+ ds, v)
              end
          end
      end
  end.

(** Line 61. *)
Definition hist_match (line : string) : option (string * string) :=
  Re.search hist_here line.


(** ** The line loop of [parse_lua_file] (lines 31 to 70) *)

(** The three variables the loop carries. *)
Record loop_state : Type := mk_state {
  items : dict (dict Z);
  current_item_name : option string;
  current_item_data : dict Z
}.

Definition initial_state : loop_state := mk_state [] None [].

(** The name under which an open entity is committed; a commit happens
    only under a test that the name is set. *)
Definition name_of (o : option string) : string :=
  match o with
  | Some n => n
  | None => EmptyString
  end.

(** Lines 41 and 42, and 67 and 68: commit the open entity when it has
    fields. *)
Definition commit (name : option string) (data : dict Z)
    (its : dict (dict Z)) : dict (dict Z) :=
  if dict_truthy data then dict_set (name_of name) data its else its.

(** The condition of line 39: the name when the line opens an entity. *)
Definition item_name_line (line : string) : option string :=
  match item_name_match line with
  | Some n => if (Py.count "[" line =? 1)%nat then Some n else None
  | None => None
  end.

(** Lines 50 to 63: each of the three patterns that matches is applied, in
    order, to the accumulator. *)
Definition extract_fields (line : string) (data : dict Z) : dict Z :=
  let data1 :=
    match scan_match line with
    | Some v => dict_set "lastScan" (Py.int v) data
    | None => data
    end in
  let data2 :=
    match mr_match line with
    | Some v => dict_set "mr" (Py.int v) data1
    | None => data1
    end in
  match hist_match line with
  | Some (k, v) => dict_set k (Py.int v) data2
  | None => data2
  end.

Definition CLOSE_LINE : string := "},".

(** Lines 49 to 70: the part of the body that an entity-open line skips. *)
Definition field_step (st : loop_state) (line : string) : loop_state :=
  if Py.truthy_name (current_item_name st) then
    let data := extract_fields line (current_item_data st) in
    if String.eqb (Py.strip line) CLOSE_LINE
    then mk_state (commit (current_item_name st) data (items st)) None []
    else mk_state (items st) (current_item_name st) data
  else st.

(** Lines 38 to 46: what an entity-open line does before [continue]. *)
Definition open_step (st : loop_state) (n : string) : loop_state :=
  mk_state
    (if Py.truthy_name (current_item_name st)
     then commit (current_item_name st) (current_item_data st) (items st)
     else items st)
    (Some n) [].

(** One iteration of the loop body. *)
Definition step (st : loop_state) (line : string) : loop_state :=
  match item_name_line line with
  | Some n => open_step st n
  | None => field_step st line
  end.

Definition run_lines (lines : list string) (st : loop_state) : loop_state :=
  fold_left step lines st.

(** What [parse_lua_file] returns: the empty dict of line 17, or the dict
    of lines 72 to 75. *)
Inductive parse_result : Type :=
| EmptyDict
| Parsed (realm : option string) (its : dict (dict Z)).

(** Lines 19 to 75, on the located literal. *)
Definition parse_literal (lua_data : string) : parse_result :=
  Parsed (realm_match lua_data)
         (items (run_lines (Py.split_nl lua_data) initial_state)).

(** [parse_lua_file], as a function of the content read from the file. *)
Definition parse_lua_file (content : string) : parse_result :=
  match database_search content with
  | None => EmptyDict
  | Some lua_data => parse_literal lua_data
  end.

(** ** The projection done in [main] (lines 98 to 116) *)

Record item_entry : Type := mk_entry {
  name : string;
  lastScan : Z;
  mr : Z;
  history : dict Z
}.

Record output : Type := mk_output {
  out_realm : option string;
  out_items : list item_entry
}.

(** The test of line 113. *)
Definition is_history_key (key : string) : bool :=
  Py.startswith_char "H" key && Py.isdigit (Py.drop1 key).

(** Lines 112 to 114, over the entries of one entity in dict order. *)
Definition history_of (item_data : dict Z) : dict Z :=
  fold_left
    (fun h kv => if is_history_key (fst kv) then dict_set (fst kv) (snd kv) h else h)
    item_data [].

(** Lines 104 to 114. *)
Definition project_item (item_name : string) (item_data : dict Z) : item_entry :=
  mk_entry item_name
           (dict_get_default "lastScan" 0 item_data)
           (dict_get_default "mr" 0 item_data)
           (history_of item_data).

(** The [output] of [main].  On the empty dict the lookup of line 95 raises
    [KeyError] before [output] is built: [None]. *)
Definition main_output (data : parse_result) : option output :=
  match data with
  | EmptyDict => None
  | Parsed r its =>
      Some (mk_output r (map (fun kv => project_item (fst kv) (snd kv)) its))
  end.

(** ** [convert_copper_to_gold] *)

Definition gold_of (copper : Z) : Z := copper / 10000.
Definition silver_of (copper : Z) : Z := (copper mod 10000) / 100.
Definition copper_remainder_of (copper : Z) : Z := copper mod 100.

Definition convert_copper_to_gold (copper : Z) : string :=
  let gold := gold_of copper in
  let silver := silver_of copper in
  let copper_remainder := copper_remainder_of copper in
  if 0 <? gold then
    Py.str gold +:+ "g " +:+ Py.str silver +:+ "s " +:+ Py.str copper_remainder +:+ "c"
  else if 0 <? silver then
    Py.str silver +:+ "s " +:+ Py.str copper_remainder +:+ "c"
  else
    Py.str copper_remainder +:+ "c".

(** ** Building test inputs *)

(** A bracket-quoted key, and lines joined by line feeds. *)
Definition qkey (k : string) : string := OPEN_KEY +:+ k +:+ Py.dq +:+ "]".

Fixpoint join_lines (ls : list string) : string :=
  match ls with
  | [] => EmptyString
  | [l] => l
  | l :: ls' => l +:+ Py.nl +:+ join_lines ls'
  end.

(** The saved-variables file around a literal given by its lines. *)
Definition file_of (literal_lines : list string) : string :=
  START_TOKEN +:+ join_lines literal_lines +:+ Py.nl +:+ END_TOKEN +:+ " = 99999".

(** The minimal literal of the concrete scenario, and its file. *)
Definition minimal_lines : list string :=
  [ "{";
    " " +:+ qkey "Realm1" +:+ " = {";
    "  " +:+ qkey "Widget" +:+ " = {";
    "   " +:+ qkey "lastScan" +:+ " = 12345,";
    "   " +:+ qkey "mr" +:+ " = 5000,";
    "   " +:+ qkey "H5553" +:+ " = 4800,";
    "   " +:+ qkey "H5554" +:+ " = 5100,";
    "  },";
    " },";
    "}" ].

Definition minimal_file : string := file_of minimal_lines.

(** ** Vocabulary of the properties *)

Definition result_items (r : parse_result) : dict (dict Z) :=
  match r with
  | EmptyDict => []
  | Parsed _ its => its
  end.

Definition result_realm (r : parse_result) : option string :=
  match r with
  | EmptyDict => None
  | Parsed realm _ => realm
  end.

Definition is_some {A : Type} (o : option A) : bool :=
  match o with
  | Some _ => true
  | None => false
  end.

(** A field line: one of the three patterns of lines 51, 56 and 61 matches. *)
Definition has_field (line : string) : bool :=
  is_some (scan_match line) || is_some (mr_match line) || is_some (hist_match line).

(** An entity-open line (the condition of line 39 holds), and one that
    opens the entity [n]. *)
Definition is_open (line : string) : bool := is_some (item_name_line line).

Definition opens (n line : string) : bool :=
  match item_name_line line with
  | Some m => String.eqb m n
  | None => false
  end.

(** A terminator line (the condition of line 66 holds). *)
Definition is_close (line : string) : bool := String.eqb (Py.strip line) CLOSE_LINE.

(** A line that closes an open entity: a re-open or a terminator. *)
Definition closes (line : string) : bool := is_open line || is_close line.

(** A line between the open line of an entity and its close. *)
Definition interior (line : string) : bool := negb (closes line).

(** The fields that the lines of one entity body accumulate. *)
Definition collect_from (data : dict Z) (body : list string) : dict Z :=
  fold_left (fun d l => extract_fields l d) body data.

Definition collect (body : list string) : dict Z := collect_from [] body.

(** The lines hold a span of the entity [n]: its open line, a body with at
    least one field line, and the line that closes it. *)
Definition committed_span (lines : list string) (n : string) : Prop :=
  exists pre l_open body l_close post,
    lines = pre ++ l_open :: body ++ l_close :: post /\
    item_name_line l_open = Some n /\
    forallb interior body = true /\
    closes l_close = true /\
    existsb has_field body = true.

(** A name that the key pattern can capture: not empty, no double quote. *)
Definition valid_name (n : string) : Prop :=
  n <> EmptyString /\ Py.all_chars not_quote n = true.

(** The text [s] holds, right after [pre], a bracket-quoted key [n]
    followed by an assignment of an opening brace. *)
Definition key_occurs_at (s pre n : string) : Prop :=
  exists rest,
    s = pre +:+ OPEN_KEY +:+ n +:+ CLOSE_KEY_BRACE +:+ rest /\ valid_name n.

(** The boundary markers of the saved-variables file: the start token
    followed by an opening brace, and a line that begins with the end
    token. *)
Definition START_MARKER : string := START_TOKEN +:+ "{".
Definition END_MARKER : string := Py.nl +:+ END_TOKEN.

(** Both markers are present, the start marker first. *)
Definition markers_in_order (content : string) : Prop :=
  exists pre mid post,
    content = pre +:+ START_MARKER +:+ mid +:+ END_MARKER +:+ post.

(** The literal as line 12 requires it: a closing brace right before the
    line of the end token. *)
Definition literal_delimited (content : string) : Prop :=
  exists pre body post,
    content =
      pre +:+ START_MARKER +:+ body +:+ "}" +:+ END_MARKER +:+ post.

Definition start_then_end (s : string) : option unit :=
  match Re.lit START_MARKER s with
  | None => None
  | Some r =>
      match Re.until END_MARKER r with
      | None => None
      | Some _ => Some tt
      end
  end.

(** Decision procedure for [markers_in_order]. *)
Definition markers_in_orderb (content : string) : bool :=
  is_some (Re.search start_then_end content).



(** The scope name as the specification words it: the first bracket-quoted
    key followed by an opening brace that stands at the outermost nesting
    level of the literal, that is inside its outer pair of braces only.
    [depth] counts the braces open before the position. *)
Fixpoint spec_scope_from (depth : Z) (s : string) : option string :=
  match (if depth =? 1 then key_brace_here s else None) with
  | Some n => Some n
  | None =>
      match s with
      | EmptyString => None
      | String c s' =>
          spec_scope_from
            (if Ascii.eqb c "{" then depth + 1
             else if Ascii.eqb c "}" then depth - 1
             else depth) s'
      end
  end.

Definition spec_scope_name (lua_data : string) : option string :=
  spec_scope_from 0 lua_data.

(** Number of braces open at the end of a text. *)
Definition brace_depth (s : string) : Z :=
  Z.of_nat (Py.count "{" s) - Z.of_nat (Py.count "}" s).

(** ** Sample inputs *)

(** One entity whose only field is [lastScan]. *)
Definition lastscan_only_lines : list string :=
  [ "{";
      " " +:+ qkey "Realm1" +:+ " = {";
      "  " +:+ qkey "Widget" +:+ " = {";
      "   " +:+ qkey "lastScan" +:+ " = 1,";
      "  },";
      " },";
      "}" ].

Definition lastscan_only_file : string := file_of lastscan_only_lines.



(** The same entity name opened twice with different fields. *)
Definition reopened_lines : list string :=
  [ "{";
      " " +:+ qkey "Realm1" +:+ " = {";
      "  " +:+ qkey "Widget" +:+ " = {";
      "   " +:+ qkey "lastScan" +:+ " = 12345,";
      "   " +:+ qkey "H5553" +:+ " = 4800,";
      "  },";
      "  " +:+ qkey "Gadget" +:+ " = {";
      "   " +:+ qkey "mr" +:+ " = 10,";
      "  },";
      "  " +:+ qkey "Widget" +:+ " = {";
      "   " +:+ qkey "mr" +:+ " = 5000,";
      "   " +:+ qkey "H5554" +:+ " = 5100,";
      "  },";
      " },";
      "}" ].

Definition reopened_file : string := file_of reopened_lines.

(** The last entity is followed by closing braces without commas. *)
Definition unterminated_lines : list string :=
  [ "{";
      " " +:+ qkey "Realm1" +:+ " = {";
      "  " +:+ qkey "Gadget" +:+ " = {";
      "   " +:+ qkey "mr" +:+ " = 10,";
      "  },";
      "  " +:+ qkey "Widget" +:+ " = {";
      "   " +:+ qkey "mr" +:+ " = 5000,";
      "  }";
      " }";
      "}" ].

Definition unterminated_file : string := file_of unterminated_lines.

(** A table under a numeric key comes before the realm, and holds a
    bracket-quoted key of its own. *)
Definition nested_first_lines : list string :=
    [ "{";
      " [1] = {";
      "  " +:+ qkey "inner" +:+ " = {";
      "  },";
      " },";
      " " +:+ qkey "Realm1" +:+ " = {";
      "  " +:+ qkey "Widget" +:+ " = {";
      "   " +:+ qkey "mr" +:+ " = 5000,";
      "  },";
      " },";
      "}" ].

Definition nested_first_literal : string := join_lines nested_first_lines.

Definition nested_first_file : string := file_of nested_first_lines.

Definition nested_table_line : string :=
  "  " +:+ qkey "Bag" +:+ " = { " +:+ qkey "lastScan" +:+ " = 5 },".

(** An open entity that has collected one field. *)
Definition widget_open : loop_state := mk_state [] (Some "Widget") [("mr", 5000)].

(** The minimal file cut before the line of the end token. *)
Definition no_end_marker_file : string :=
  join_lines
    [ "AUCTIONATOR_PRICE_DATABASE = {";
      " " +:+ qkey "Realm1" +:+ " = {";
      "  " +:+ qkey "Widget" +:+ " = {";
      "   " +:+ qkey "mr" +:+ " = 5000,";
      "  },";
      " },";
      "}" ].

(** A series key with the prefix that the extractor knows, and a line that
    assigns a number to it. *)
Definition series_key (ds : string) : string := "H" +:+ ds.


(** What the loop has established once the lines [seen] are processed:
    every committed name has a committed span among them, and the open
    entity has its open line and body among them. *)
Definition loop_invariant (seen : list string) (st : loop_state) : Prop :=
  (forall k, In k (dict_keys (items st)) -> committed_span seen k) /\
  (forall n, current_item_name st = Some n ->
     exists pre l_open body,
       seen = pre ++ l_open :: body /\
       item_name_line l_open = Some n /\
       forallb interior body = true /\
       current_item_data st = collect body).

(** ** The rest of [main]: what it prints and what it writes *)

(** The notice of line 16, printed when the literal is not found. *)
Definition parse_stdout (content : string) : list string :=
  match database_search content with
  | None => ["Could not find AUCTIONATOR_PRICE_DATABASE"]
  | Some _ => []
  end.

(** The realm as line 94 shows it: [data.get('realm', 'Unknown')] in an
    f-string.  The default is used on the empty dict only; a realm that is
    [None] is shown as such. *)
Definition realm_shown (data : parse_result) : string :=
  match data with
  | EmptyDict => "Unknown"
  | Parsed None _ => "None"
  | Parsed (Some r) _ => r
  end.

(** [sorted] on a list of strings: ascending by code points. *)
Fixpoint insert_sorted (k : string) (l : list string) : list string :=
  match l with
  | [] => [k]
  | x :: l' => if String.leb k x then k :: l else x :: insert_sorted k l'
  end.

Definition sorted (l : list string) : list string :=
  fold_right insert_sorted [] l.

(** Line 128: the keys of one entity that start with H. *)
Definition hist_keys (item_data : dict Z) : list string :=
  filter (Py.startswith_char "H") (dict_keys item_data).

(** One sampled entity of lines 130 to 133: its name, its current price
    and its history points in key order, prices as displayed. *)
Record sample : Type := mk_sample {
  sample_name : string;
  sample_current : string;
  sample_history : list (string * string)
}.

(** The lookup [item_data[hist_key]] of line 133 is on a key taken from the
    dict itself. *)
Definition sample_of (item_name : string) (item_data : dict Z) : sample :=
  mk_sample item_name
    (convert_copper_to_gold (dict_get_default "mr" 0 item_data))
    (map (fun k => (k, convert_copper_to_gold (dict_get_default k 0 item_data)))
         (sorted (hist_keys item_data))).

(** The test of line 129. *)
Definition has_price_history (item_data : dict Z) : bool :=
  2 <=? Z.of_nat (List.length (hist_keys item_data)).

(** Lines 126 to 136: the entities sampled, [count] being the counter of
    the loop; the loop breaks when the counter reaches 5. *)
Fixpoint sample_loop (its : dict (dict Z)) (count : Z) : list sample :=
  match its with
  | [] => []
  | (item_name, item_data) :: rest =>
      if has_price_history item_data then
        sample_of item_name item_data ::
        (if 5 <=? count + 1 then [] else sample_loop rest (count + 1))
      else sample_loop rest count
  end.

Definition samples (its : dict (dict Z)) : list sample := sample_loop its 0.

(** What lines 130 to 133 print for one sampled entity. *)
Definition sample_prints (s : sample) : list string :=
  (Py.nl +:+ sample_name s +:+ ":")
  :: ("  Current: " +:+ sample_current s)
  :: map (fun kv => "  " +:+ fst kv +:+ ": " +:+ snd kv) (sample_history s).

(** How [main] ends: with the [KeyError] of line 95, nothing written, or
    with the output written to the JSON file.  Both carry what was printed
    up to there. *)
Inductive main_outcome : Type :=
| RaisedKeyError (stdout : list string)
| Finished (stdout : list string) (written : output).

(** [main], as a function of the content of the file it reads. *)
Definition main_run (content : string) : main_outcome :=
  let data := parse_lua_file content in
  let head :=
    ["Parsing Auctionator.lua..."] ++ parse_stdout content
    ++ [Py.nl +:+ "Realm: " +:+ realm_shown data] in
  match main_output data with
  | None => RaisedKeyError head
  | Some out =>
      Finished
        (head
         ++ [ "Total items: " +:+ Py.str (Z.of_nat (List.length (result_items data)));
              Py.nl +:+ "Data exported to price_data.json";
              Py.nl +:+ "Sample items with price history:" ]
         ++ flat_map sample_prints (samples (result_items data)))
        out
  end.

(** ** Vocabulary of the further properties *)

(** The names of the records that [main] writes, in order. *)
Definition output_names (data : parse_result) : list string :=
  match main_output data with
  | Some out => map name (out_items out)
  | None => []
  end.

(** The field names that the extractor can store. *)
Definition field_key (k : string) : Prop :=
  k = "lastScan" \/ k = "mr" \/
  exists ds, k = series_key ds /\ ds <> EmptyString /\
             Py.all_chars Py.isdecimal ds = true.

(** A well-formed accumulator: no key twice, every key one that the
    extractor stores, every value non-negative. *)
Definition fields_ok (d : dict Z) : Prop :=
  NoDup (dict_keys d) /\
  forall k v, In (k, v) d -> field_key k /\ 0 <= v.

Definition state_ok (st : loop_state) : Prop :=
  fields_ok (current_item_data st) /\
  forall n d, In (n, d) (items st) -> d <> [] /\ fields_ok d.

(** A line that assigns [rest] to the bracket-quoted key [k]. *)
Definition assign_line (pre k rest : string) : string :=
  pre +:+ OPEN_KEY +:+ k +:+ CLOSE_KEY_ASSIGN +:+ rest.

(** One of the two fixed fields. *)
Definition fixed_key (k : string) : Prop := k = "lastScan" \/ k = "mr".

(** Sample inputs: a current price written with a fraction, and one
    written with a sign. *)
Definition fraction_line : string := "   " +:+ qkey "mr" +:+ " = 12.5,".
Definition negative_line : string := "   " +:+ qkey "mr" +:+ " = -5,".

(** ** Vocabulary of the series fields *)






Definition reopened_open_lines : list string :=
  [ "{";
    " " +:+ qkey "Realm1" +:+ " = {";
    "  " +:+ qkey "Widget" +:+ " = {";
    "   " +:+ qkey "mr" +:+ " = 1,";
    "  },";
    "  " +:+ qkey "Widget" +:+ " = {";
    "   " +:+ qkey "mr" +:+ " = 2,";
    "  }";
    " }";
    "}" ].

Definition reopened_open_file : string := file_of reopened_open_lines.

(** ** Strings: append, literals, runs and searches *)

Lemma sapp_assoc (a b c : string) : (a +:+ b) +:+ c = a +:+ b +:+ c.
Proof. induction a as [|x a IH]; simpl; [reflexivity | now rewrite IH]. Qed.

Lemma count_app (c : ascii) (a b : string) :
  Py.count c (a +:+ b) = (Py.count c a + Py.count c b)%nat.
Proof. induction a as [|x a IH]; simpl; [reflexivity | rewrite IH; lia]. Qed.

(** A class that excludes [c] has no [c] in its runs. *)
Lemma all_chars_count0 (f : ascii -> bool) (c : ascii) (s : string) :
  f c = false -> Py.all_chars f s = true -> Py.count c s = O.
Proof.
  intros Hc. induction s as [|x s IH]; simpl; [reflexivity|].
  intros H. apply andb_prop in H as [Hx Hs].
  destruct (Ascii.eqb_spec x c) as [->|_]; [congruence|].
  now rewrite IH.
Qed.

Lemma lit_spec (p s r : string) : Re.lit p s = Some r <-> s = p +:+ r.
Proof.
  revert s. induction p as [|a p IH]; intros s; simpl.
  - split; [now intros [= ->] | now intros ->].
  - destruct s as [|b s].
    + split; discriminate.
    + destruct (Ascii.eqb_spec a b) as [->|Hab].
      * rewrite IH. split; [now intros -> | now intros [= ->]].
      * split; [discriminate | intros [= H _]; congruence].
Qed.

Lemma lit_app (p r : string) : Re.lit p (p +:+ r) = Some r.
Proof. now apply lit_spec. Qed.

Lemma span_spec (f : ascii -> bool) (s a b : string) :
  Re.span f s = (a, b) <->
  s = a +:+ b /\ Py.all_chars f a = true /\ Re.head_fails f b.
Proof.
  revert a b. induction s as [|c s IH]; intros a b; simpl.
  - split.
    + intros [= <- <-]. now simpl.
    + intros [H _]. destruct a; [|discriminate]. simpl in H. now subst b.
  - destruct (f c) eqn:Hc.
    + destruct (Re.span f s) as [a' b'] eqn:E.
      destruct (IH a' b') as [IH1 _]. specialize (IH1 eq_refl) as [Hs [Ha Hb]].
      split.
      * intros [= <- <-]. simpl. rewrite Hc, Ha, <- Hs. now simpl.
      * intros [H [Ha2 Hb2]]. destruct a as [|x a]; simpl in *.
        -- subst b. simpl in Hb2. congruence.
        -- injection H as -> H. apply andb_prop in Ha2 as [_ Ha2].
           assert (E2 : (a', b') = (a, b)) by (apply IH; now rewrite <- H).
           congruence.
    + split.
      * intros [= <- <-]. now simpl.
      * intros [H [Ha Hb]]. destruct a as [|x a]; simpl in *.
        -- now subst b.
        -- injection H as -> H. rewrite Hc in Ha. discriminate.
Qed.

Lemma span_app (f : ascii -> bool) (a b : string) :
  Py.all_chars f a = true -> Re.head_fails f b -> Re.span f (a +:+ b) = (a, b).
Proof. intros Ha Hb. now apply span_spec. Qed.

Lemma plus_spec (f : ascii -> bool) (s a b : string) :
  Re.plus f s = Some (a, b) <->
  s = a +:+ b /\ a <> EmptyString /\ Py.all_chars f a = true /\ Re.head_fails f b.
Proof.
  unfold Re.plus. destruct (Re.span f s) as [a' b'] eqn:E.
  apply span_spec in E as E'. destruct E' as [Hs [Ha Hb]].
  split.
  - destruct a'; [discriminate|]. intros [= <- <-]. repeat split; try assumption.
    discriminate.
  - intros [Hs2 [Hne [Ha2 Hb2]]].
    assert (E2 : Re.span f s = (a, b)) by now apply span_spec.
    rewrite E in E2. injection E2 as -> ->.
    destruct a; [now destruct Hne | reflexivity].
Qed.

Lemma search_some {A : Type} (m : string -> option A) (s : string) (r : A) :
  Re.search m s = Some r <->
  exists pre suf, s = pre +:+ suf /\ m suf = Some r /\
    forall pre' suf', s = pre' +:+ suf' ->
      (String.length pre' < String.length pre)%nat -> m suf' = None.
Proof.
  induction s as [|c s IH]; simpl.
  - destruct (m EmptyString) as [r0|] eqn:E.
    + split.
      * intros [= <-]. exists EmptyString, EmptyString. repeat split; try assumption.
        intros pre' suf' _ Hlt. simpl in Hlt. lia.
      * intros [pre [suf [Hs [Hm _]]]].
        destruct pre; [|discriminate]. simpl in Hs. subst suf. congruence.
    + split; [discriminate|].
      intros [pre [suf [Hs [Hm _]]]].
      destruct pre; [|discriminate]. simpl in Hs. subst suf. congruence.
  - destruct (m (String c s)) as [r0|] eqn:E.
    + split.
      * intros [= <-]. exists EmptyString, (String c s). repeat split; try assumption.
        intros pre' suf' _ Hlt. simpl in Hlt. lia.
      * intros [pre [suf [Hs [Hm Hfirst]]]].
        destruct pre as [|x pre].
        -- simpl in Hs. subst suf. congruence.
        -- specialize (Hfirst EmptyString (String c s) eq_refl).
           simpl in Hfirst. rewrite Hfirst in E by lia. discriminate.
    + rewrite IH. split.
      * intros [pre [suf [Hs [Hm Hfirst]]]].
        exists (String c pre), suf. repeat split; [simpl; now rewrite Hs | assumption |].
        intros pre' suf' Hs' Hlt. destruct pre' as [|x pre'].
        -- simpl in Hs'. now subst suf'.
        -- simpl in Hs'. injection Hs' as Hx Hs'. subst x.
           apply (Hfirst pre' suf' Hs'). simpl in Hlt. lia.
      * intros [pre [suf [Hs [Hm Hfirst]]]].
        destruct pre as [|x pre].
        -- simpl in Hs. subst suf. congruence.
        -- simpl in Hs. injection Hs as Hx Hs. subst x.
           exists pre, suf. repeat split; try assumption.
           intros pre' suf' Hs' Hlt.
           apply (Hfirst (String c pre') suf'); simpl; [now rewrite Hs' | lia].
Qed.

Lemma search_none {A : Type} (m : string -> option A) (s : string) :
  Re.search m s = None <-> forall pre suf, s = pre +:+ suf -> m suf = None.
Proof.
  induction s as [|c s IH]; simpl.
  - destruct (m EmptyString) eqn:E.
    + split; [discriminate|]. intros H. specialize (H EmptyString EmptyString eq_refl).
      congruence.
    + split; [|reflexivity]. intros _ pre suf Hs.
      destruct pre; [|discriminate]. simpl in Hs. now subst suf.
  - destruct (m (String c s)) eqn:E.
    + split; [discriminate|]. intros H. specialize (H EmptyString _ eq_refl). congruence.
    + rewrite IH. split.
      * intros H pre suf Hs. destruct pre as [|x pre].
        -- simpl in Hs. now subst suf.
        -- simpl in Hs. injection Hs as Hx Hs. subst x. now apply (H pre).
      * intros H pre suf Hs. apply (H (String c pre)). simpl. now rewrite Hs.
Qed.

Lemma search_here {A : Type} (m : string -> option A) (s : string) (r : A) :
  m s = Some r -> Re.search m s = Some r.
Proof. intros H. destruct s; simpl; now rewrite H. Qed.

Lemma until_some (p s a b : string) :
  Re.until p s = Some (a, b) -> s = a +:+ p +:+ b.
Proof.
  revert a b. induction s as [|c s IH]; intros a b; simpl.
  - destruct (Re.lit p EmptyString) as [r|] eqn:E; [|discriminate].
    intros [= <- <-]. now apply lit_spec in E.
  - destruct (Re.lit p (String c s)) as [r|] eqn:E.
    + intros [= <- <-]. now apply lit_spec in E.
    + destruct (Re.until p s) as [[a' b']|]; [|discriminate].
      intros [= <- <-]. simpl. now rewrite (IH a' b' eq_refl).
Qed.

Lemma until_none (p s : string) :
  Re.until p s = None <-> forall a b, s <> a +:+ p +:+ b.
Proof.
  induction s as [|c s IH]; simpl.
  - destruct (Re.lit p EmptyString) as [r|] eqn:E.
    + split; [discriminate|]. intros H. apply lit_spec in E.
      now destruct (H EmptyString r).
    + split; [|reflexivity]. intros _ a b H.
      destruct a; [|discriminate]. simpl in H. apply lit_spec in H. congruence.
  - destruct (Re.lit p (String c s)) as [r|] eqn:E.
    + split; [discriminate|]. intros H. apply lit_spec in E.
      now destruct (H EmptyString r).
    + destruct (Re.until p s) as [[a' b']|] eqn:E2.
      * split; [discriminate|]. intros H. apply until_some in E2.
        destruct (H (String c a') b'). simpl. now rewrite E2.
      * split; [|reflexivity]. intros _ a b H.
        destruct a as [|x a]; simpl in H.
        -- apply lit_spec in H. congruence.
        -- injection H as Hx H. subst x. destruct IH as [IH _].
           now apply (IH eq_refl a b).
Qed.


(** ** Dictionaries *)

Section DictFacts.

Context {V : Type}.
Implicit Types (d : dict V) (k : string) (v : V).

Lemma dict_get_set_eq k v d : dict_get k (dict_set k v d) = Some v.
Proof.
  induction d as [|[k' v'] d IH]; simpl.
  - now rewrite String.eqb_refl.
  - destruct (String.eqb_spec k' k) as [->|Hne]; simpl.
    + now rewrite String.eqb_refl.
    + destruct (String.eqb_spec k' k); [contradiction | exact IH].
Qed.

Lemma dict_get_set_neq k k' v d :
  k <> k' -> dict_get k (dict_set k' v d) = dict_get k d.
Proof.
  intros Hne. induction d as [|[k0 v0] d IH]; simpl.
  - destruct (String.eqb_spec k' k); [congruence | reflexivity].
  - destruct (String.eqb_spec k0 k') as [->|Hne0]; simpl.
    + destruct (String.eqb_spec k' k); [congruence | reflexivity].
    + destruct (String.eqb_spec k0 k); [reflexivity | exact IH].
Qed.

Lemma dict_keys_set k k' v d :
  In k (dict_keys (dict_set k' v d)) <-> k = k' \/ In k (dict_keys d).
Proof.
  unfold dict_keys. induction d as [|[k0 v0] d IH]; simpl.
  - intuition congruence.
  - destruct (String.eqb_spec k0 k') as [->|Hne0]; simpl.
    + intuition congruence.
    + rewrite IH. intuition congruence.
Qed.

Lemma dict_keys_set_nodup k v d :
  NoDup (dict_keys d) -> NoDup (dict_keys (dict_set k v d)).
Proof.
  unfold dict_keys. induction d as [|[k0 v0] d IH]; simpl; intros Hnd.
  - constructor; [intros [] | constructor].
  - inversion Hnd as [|? ? Hnot Hnd']; subst.
    destruct (String.eqb_spec k0 k) as [->|Hne0]; simpl.
    + now constructor.
    + constructor; [|now apply IH].
      intros Hin. apply (dict_keys_set k0 k v d) in Hin.
      destruct Hin; [congruence | contradiction].
Qed.

Lemma dict_get_in_keys k d :
  In k (dict_keys d) <-> exists v, dict_get k d = Some v.
Proof.
  unfold dict_keys. induction d as [|[k0 v0] d IH]; simpl.
  - split; [intros [] | intros [v H]; discriminate].
  - destruct (String.eqb_spec k0 k) as [->|Hne0].
    + split; [intros _; now exists v0 | intros _; now left].
    + rewrite <- IH. intuition congruence.
Qed.

Lemma dict_truthy_set k v d : dict_truthy (dict_set k v d) = true.
Proof. destruct d as [|[k0 v0] d]; simpl; [reflexivity|]. now destruct (String.eqb k0 k). Qed.

End DictFacts.

(** A key of a dict without duplicates occurs once among its keys. *)
Lemma count_occ_nodup_in (k : string) (l : list string) :
  NoDup l -> In k l -> count_occ string_dec l k = 1%nat.
Proof.
  intros Hnd Hin. apply (NoDup_count_occ' string_dec); assumption.
Qed.

(** ** Lines: stripping, field lines and terminators *)

Lemma count_lstrip (c : ascii) (s : string) :
  Py.isspace c = false -> Py.count c (Py.lstrip s) = Py.count c s.
Proof.
  intros Hc. induction s as [|x s IH]; simpl; [reflexivity|].
  destruct (Py.isspace x) eqn:Hx; [|reflexivity].
  destruct (Ascii.eqb_spec x c) as [->|_]; [congruence | exact IH].
Qed.

Lemma count_rstrip (c : ascii) (s : string) :
  Py.isspace c = false -> Py.count c (Py.rstrip s) = Py.count c s.
Proof.
  intros Hc. induction s as [|x s IH]; simpl; [reflexivity|].
  destruct (Py.rstrip s) as [|y r] eqn:E.
  - simpl in IH. rewrite <- IH.
    destruct (Py.isspace x) eqn:Hx; simpl; [|lia].
    destruct (Ascii.eqb_spec x c) as [->|_]; [congruence | reflexivity].
  - rewrite <- IH. reflexivity.
Qed.

Lemma count_strip (c : ascii) (s : string) :
  Py.isspace c = false -> Py.count c (Py.strip s) = Py.count c s.
Proof.
  intros Hc. unfold Py.strip. now rewrite count_rstrip, count_lstrip.
Qed.

(** A terminator line holds no opening bracket. *)
Lemma is_close_no_bracket (line : string) :
  is_close line = true -> Py.count "[" line = O.
Proof.
  unfold is_close. intros H. apply String.eqb_eq in H.
  rewrite <- (count_strip "[" line) by reflexivity. now rewrite H.
Qed.

(** Every pattern of the loop starts with an opening bracket. *)
Lemma search_bracket {A : Type} (m : string -> option A) (line : string) (r : A) :
  (forall s x, m s = Some x -> exists t, s = String "[" t) ->
  Re.search m line = Some r -> (1 <= Py.count "[" line)%nat.
Proof.
  intros Hm H. apply search_some in H as [pre [suf [-> [Hs _]]]].
  apply Hm in Hs as [t ->]. rewrite count_app. simpl. lia.
Qed.

Lemma fixed_field_here_bracket (key s x : string) :
  fixed_field_here key s = Some x -> exists t, s = String "[" t.
Proof.
  unfold fixed_field_here.
  destruct (Re.lit _ s) as [r|] eqn:E; [|discriminate].
  intros _. apply lit_spec in E. rewrite E. simpl. eauto.
Qed.

Lemma hist_here_bracket (s : string) (x : string * string) :
  hist_here s = Some x -> exists t, s = String "[" t.
Proof.
  unfold hist_here.
  destruct (Re.lit _ s) as [r|] eqn:E; [|discriminate].
  intros _. apply lit_spec in E. rewrite E. simpl. eauto.
Qed.

Lemma has_field_bracket (line : string) :
  has_field line = true -> (1 <= Py.count "[" line)%nat.
Proof.
  unfold has_field, scan_match, mr_match, hist_match.
  destruct (Re.search (fixed_field_here "lastScan") line) eqn:E1.
  { intros _. eapply search_bracket; [|exact E1]. apply fixed_field_here_bracket. }
  destruct (Re.search (fixed_field_here "mr") line) eqn:E2.
  { intros _. eapply search_bracket; [|exact E2]. apply fixed_field_here_bracket. }
  destruct (Re.search hist_here line) eqn:E3; [|discriminate].
  intros _. eapply search_bracket; [|exact E3]. apply hist_here_bracket.
Qed.

Lemma is_close_no_field (line : string) :
  is_close line = true -> has_field line = false.
Proof.
  intros Hc. destruct (has_field line) eqn:E; [|reflexivity].
  apply has_field_bracket in E. apply is_close_no_bracket in Hc. lia.
Qed.

Lemma extract_no_field (line : string) (data : dict Z) :
  has_field line = false -> extract_fields line data = data.
Proof.
  unfold has_field, extract_fields.
  destruct (scan_match line); [discriminate|].
  destruct (mr_match line); [discriminate|].
  destruct (hist_match line) as [[k v]|]; [discriminate | reflexivity].
Qed.

Lemma extract_truthy (line : string) (data : dict Z) :
  dict_truthy (extract_fields line data) = dict_truthy data || has_field line.
Proof.
  unfold has_field, extract_fields.
  destruct (hist_match line) as [[k v]|]; simpl.
  { rewrite dict_truthy_set. now rewrite !orb_true_r. }
  destruct (mr_match line); simpl.
  { rewrite dict_truthy_set. now rewrite !orb_true_r. }
  destruct (scan_match line); simpl.
  { rewrite dict_truthy_set. now rewrite !orb_true_r. }
  now rewrite orb_false_r.
Qed.

Lemma collect_from_truthy (body : list string) (data : dict Z) :
  dict_truthy (collect_from data body) = dict_truthy data || existsb has_field body.
Proof.
  unfold collect_from. revert data.
  induction body as [|l body IH]; intros data; simpl.
  - now rewrite orb_false_r.
  - rewrite IH, extract_truthy. now rewrite orb_assoc.
Qed.

Lemma collect_truthy (body : list string) :
  dict_truthy (collect body) = existsb has_field body.
Proof. unfold collect. now rewrite collect_from_truthy. Qed.

(** The name an entity-open line declares is not empty. *)
Lemma key_brace_here_nonempty (s n : string) :
  key_brace_here s = Some n -> n <> EmptyString.
Proof.
  unfold key_brace_here.
  destruct (Re.lit OPEN_KEY s) as [r|]; [|discriminate].
  destruct (Re.plus not_quote r) as [[k r']|] eqn:E; [|discriminate].
  destruct (Re.lit CLOSE_KEY_BRACE r'); [|discriminate].
  intros [= <-]. now apply plus_spec in E.
Qed.

Lemma item_name_line_nonempty (line n : string) :
  item_name_line line = Some n -> n <> EmptyString.
Proof.
  unfold item_name_line, item_name_match.
  destruct (key_brace_here _) as [m|] eqn:E; [|discriminate].
  destruct (_ =? _)%nat; [|discriminate].
  intros [= <-]. now apply key_brace_here_nonempty in E.
Qed.

Lemma truthy_name_some (n : string) :
  n <> EmptyString -> Py.truthy_name (Some n) = true.
Proof. destruct n; [congruence | reflexivity]. Qed.

(** ** The loop as a state machine *)

Lemma run_lines_app (l1 l2 : list string) (st : loop_state) :
  run_lines (l1 ++ l2) st = run_lines l2 (run_lines l1 st).
Proof. unfold run_lines. apply fold_left_app. Qed.

Lemma run_lines_cons (l : string) (ls : list string) (st : loop_state) :
  run_lines (l :: ls) st = run_lines ls (step st l).
Proof. reflexivity. Qed.

Lemma commit_truthy (n : string) (data : dict Z) (its : dict (dict Z)) :
  dict_truthy data = true -> commit (Some n) data its = dict_set n data its.
Proof. unfold commit. now intros ->. Qed.

Lemma commit_falsy (o : option string) (data : dict Z) (its : dict (dict Z)) :
  dict_truthy data = false -> commit o data its = its.
Proof. unfold commit. now intros ->. Qed.

(** An entity-open line: the previous entity is committed when it has
    fields, and the new one starts empty. *)
Lemma step_open (st : loop_state) (line n : string) :
  item_name_line line = Some n -> step st line = open_step st n.
Proof. unfold step. now intros ->. Qed.

(** A body line of an open entity only feeds the accumulator. *)
Lemma step_interior (its : dict (dict Z)) (n : string) (data : dict Z) (line : string) :
  n <> EmptyString -> interior line = true ->
  step (mk_state its (Some n) data) line =
    mk_state its (Some n) (extract_fields line data).
Proof.
  intros Hn Hi. unfold interior, closes, is_open, is_close in Hi.
  apply negb_true_iff, orb_false_iff in Hi as [Ho Hc].
  unfold step, open_step, field_step. destruct (item_name_line line); [discriminate|].
  unfold is_some in Ho. cbn [current_item_name current_item_data items].
  rewrite (truthy_name_some n Hn). now rewrite Hc.
Qed.

Lemma run_interior (body : list string) (its : dict (dict Z)) (n : string) (data : dict Z) :
  n <> EmptyString -> forallb interior body = true ->
  run_lines body (mk_state its (Some n) data) =
    mk_state its (Some n) (collect_from data body).
Proof.
  intros Hn. revert data.
  induction body as [|l body IH]; intros data Hb; [reflexivity|].
  simpl in Hb. apply andb_prop in Hb as [Hl Hb].
  rewrite run_lines_cons, step_interior by assumption. now apply IH.
Qed.

(** A closing line commits the open entity with the fields collected so
    far, when there are some. *)
Lemma step_closes_items (its : dict (dict Z)) (n : string) (data : dict Z) (line : string) :
  n <> EmptyString -> closes line = true ->
  items (step (mk_state its (Some n) data) line) = commit (Some n) data its.
Proof.
  intros Hn Hc. unfold step, open_step, field_step.
  destruct (item_name_line line) as [m|] eqn:E;
    cbn [current_item_name current_item_data items].
  - now rewrite (truthy_name_some n Hn).
  - rewrite (truthy_name_some n Hn).
    unfold closes, is_open in Hc. rewrite E in Hc. simpl in Hc.
    rewrite (extract_no_field line data (is_close_no_field line Hc)).
    unfold is_close in Hc. now rewrite Hc.
Qed.

(** After a closing line the open entity, if any, is the one that the line
    declares. *)
Lemma step_closes_name (st : loop_state) (line : string) :
  Py.truthy_name (current_item_name st) = true -> closes line = true ->
  current_item_name (step st line) = item_name_line line.
Proof.
  intros Ht Hc. unfold step, open_step, field_step.
  destruct (item_name_line line) as [m|] eqn:E; simpl; [reflexivity|].
  rewrite Ht. unfold closes, is_open in Hc. rewrite E in Hc. simpl in Hc.
  unfold is_close in Hc. now rewrite Hc.
Qed.

(** One iteration leaves [items] alone or commits the open entity. *)
Lemma step_items (st : loop_state) (line : string) :
  items (step st line) = items st \/
  exists n data,
    current_item_name st = Some n /\ n <> EmptyString /\
    items (step st line) = dict_set n data (items st).
Proof.
  unfold step, open_step, field_step. destruct st as [its [n|] data]; simpl.
  - destruct n as [|c n]; simpl.
    + destruct (item_name_line line); simpl; now left.
    + assert (Hex : forall d, commit (Some (String c n)) d its = its \/
               exists n' data', Some (String c n) = Some n' /\ n' <> EmptyString /\
                 commit (Some (String c n)) d its = dict_set n' data' its).
      { intros d. unfold commit. destruct (dict_truthy d); [|now left].
        right. exists (String c n), d. repeat split. discriminate. }
      destruct (item_name_line line); simpl; [apply Hex|].
      destruct (String.eqb _ _); simpl; [apply Hex | now left].
  - destruct (item_name_line line); simpl; now left.
Qed.

(** The name of the open entity after one iteration. *)
Lemma step_name (st : loop_state) (line : string) :
  current_item_name (step st line) = item_name_line line \/
  current_item_name (step st line) = current_item_name st \/
  current_item_name (step st line) = None.
Proof.
  unfold step, open_step, field_step. destruct (item_name_line line); simpl; [now left|].
  destruct (Py.truthy_name _); [|now right; left].
  destruct (String.eqb _ _); simpl; [now right; right | now right; left].
Qed.

Lemma step_keys_mono (st : loop_state) (line k : string) :
  In k (dict_keys (items st)) -> In k (dict_keys (items (step st line))).
Proof.
  intros Hin. destruct (step_items st line) as [-> | [n [d [_ [_ ->]]]]]; [exact Hin|].
  apply dict_keys_set. now right.
Qed.

Lemma run_keys_mono (ls : list string) (st : loop_state) (k : string) :
  In k (dict_keys (items st)) -> In k (dict_keys (items (run_lines ls st))).
Proof.
  revert st. induction ls as [|l ls IH]; intros st Hin; [exact Hin|].
  rewrite run_lines_cons. apply IH. now apply step_keys_mono.
Qed.

Lemma step_keys_nodup (st : loop_state) (line : string) :
  NoDup (dict_keys (items st)) -> NoDup (dict_keys (items (step st line))).
Proof.
  intros Hnd. destruct (step_items st line) as [-> | [n [d [_ [_ ->]]]]]; [exact Hnd|].
  now apply dict_keys_set_nodup.
Qed.

Lemma run_keys_nodup (ls : list string) (st : loop_state) :
  NoDup (dict_keys (items st)) -> NoDup (dict_keys (items (run_lines ls st))).
Proof.
  revert st. induction ls as [|l ls IH]; intros st Hnd; [exact Hnd|].
  rewrite run_lines_cons. apply IH. now apply step_keys_nodup.
Qed.

(** While [n] is neither open nor re-opened, its record does not change. *)
Lemma run_get_unchanged (ls : list string) (st : loop_state) (n : string) :
  forallb (fun l => negb (opens n l)) ls = true ->
  current_item_name st <> Some n ->
  dict_get n (items (run_lines ls st)) = dict_get n (items st).
Proof.
  revert st. induction ls as [|l ls IH]; intros st Hls Hcur; [reflexivity|].
  simpl in Hls. apply andb_prop in Hls as [Hl Hls].
  rewrite run_lines_cons, IH; [| exact Hls |].
  - destruct (step_items st l) as [-> | [m [d [Hm [_ ->]]]]]; [reflexivity|].
    apply dict_get_set_neq. congruence.
  - destruct (step_name st l) as [H | [H | H]]; rewrite H.
    + unfold opens in Hl. destruct (item_name_line l) as [m|]; [|discriminate].
      destruct (String.eqb_spec m n); [discriminate | congruence].
    + exact Hcur.
    + discriminate.
Qed.

(** A whole span: open line, body, closing line. *)
Lemma run_span (st : loop_state) (l_open l_close n : string) (body : list string) :
  item_name_line l_open = Some n ->
  forallb interior body = true ->
  closes l_close = true ->
  items (run_lines (l_open :: body ++ [l_close]) st) =
    commit (Some n) (collect body) (items (open_step st n)) /\
  current_item_name (run_lines (l_open :: body ++ [l_close]) st) =
    item_name_line l_close.
Proof.
  intros Ho Hb Hc.
  assert (Hn := item_name_line_nonempty _ _ Ho).
  rewrite run_lines_cons, run_lines_app. rewrite (step_open st l_open n Ho).
  set (its := items (open_step st n)).
  replace (open_step st n) with (mk_state its (Some n) []) by reflexivity.
  rewrite run_interior by assumption. split.
  - now apply step_closes_items.
  - apply step_closes_name; [now apply truthy_name_some | assumption].
Qed.

Lemma committed_span_app (lines ext : list string) (n : string) :
  committed_span lines n -> committed_span (lines ++ ext) n.
Proof.
  intros (pre & lo & body & lc & post & -> & Ho & Hb & Hc & Hf).
  exists pre, lo, body, lc, (post ++ ext). repeat split; try assumption.
  rewrite <- !app_assoc. simpl. rewrite <- !app_assoc. reflexivity.
Qed.

(** The open entity, closed by [line] with fields collected, has a
    committed span. *)
Lemma open_entity_span (seen : list string) (st : loop_state) (n line : string) :
  loop_invariant seen st ->
  current_item_name st = Some n ->
  dict_truthy (current_item_data st) = true ->
  closes line = true ->
  committed_span (seen ++ [line]) n.
Proof.
  intros [_ I2] Hn Hd Hc.
  destruct (I2 n Hn) as (pre & lo & body & -> & Ho & Hb & Hdata).
  exists pre, lo, body, line, []. repeat split; try assumption.
  - now rewrite <- app_assoc.
  - rewrite Hdata, collect_truthy in Hd. exact Hd.
Qed.

Lemma loop_invariant_step (seen : list string) (st : loop_state) (line : string) :
  loop_invariant seen st -> loop_invariant (seen ++ [line]) (step st line).
Proof.
  intros I. pose proof I as [I1 I2].
  assert (Hold : forall k, In k (dict_keys (items st)) ->
                           committed_span (seen ++ [line]) k).
  { intros k Hk. apply committed_span_app. now apply I1. }
  assert (Hcommit : forall n data,
            current_item_name st = Some n ->
            closes line = true ->
            (dict_truthy data = true -> dict_truthy (current_item_data st) = true) ->
            forall k, In k (dict_keys (commit (Some n) data (items st))) ->
                      committed_span (seen ++ [line]) k).
  { intros n data Hn Hc Hd k Hk. unfold commit in Hk.
    destruct (dict_truthy data) eqn:Ht; [|now apply Hold].
    simpl in Hk. apply dict_keys_set in Hk as [-> | Hk]; [|now apply Hold].
    apply (open_entity_span seen st n line I Hn (Hd eq_refl) Hc). }
  unfold step, open_step, field_step. destruct (item_name_line line) as [m|] eqn:Ho.
  - (* entity-open line *)
    assert (Hc : closes line = true) by (unfold closes, is_open; now rewrite Ho).
    split; cbn [items current_item_name current_item_data].
    + intros k Hk. destruct (current_item_name st) as [n|] eqn:Hn; simpl in Hk.
      * destruct n as [|c n]; [now apply Hold|].
        apply (Hcommit (String c n) (current_item_data st) eq_refl Hc (fun H => H) k Hk).
      * now apply Hold.
    + intros n [= <-]. exists seen, line, []. repeat split. exact Ho.
  - destruct (Py.truthy_name (current_item_name st)) eqn:Ht.
    + destruct (current_item_name st) as [n|] eqn:Hn; [|discriminate].
      destruct (String.eqb (Py.strip line) CLOSE_LINE) eqn:Hcl.
      * (* terminator *)
        assert (Hc : closes line = true)
          by (unfold closes, is_close; rewrite Hcl; apply orb_true_r).
        split; cbn [items current_item_name current_item_data].
        -- apply (Hcommit n _ eq_refl Hc).
           rewrite (extract_no_field line _ (is_close_no_field line Hcl)).
           tauto.
        -- discriminate.
      * (* body line *)
        split; cbn [items current_item_name current_item_data].
        -- exact Hold.
        -- intros n' [= <-].
           destruct (I2 n eq_refl) as (pre & lo & body & -> & Hlo & Hb & Hdata).
           exists pre, lo, (body ++ [line]). repeat split.
           ++ now rewrite <- app_assoc.
           ++ exact Hlo.
           ++ rewrite forallb_app, Hb. simpl.
              unfold interior, closes, is_open, is_close. now rewrite Ho, Hcl.
           ++ rewrite Hdata. unfold collect, collect_from.
              now rewrite fold_left_app.
    + (* no entity open *)
      split; [exact Hold|].
      intros n Hn. destruct (I2 n Hn) as (pre & lo & body & _ & Hlo & _).
      apply item_name_line_nonempty in Hlo.
      rewrite Hn, (truthy_name_some n Hlo) in Ht. discriminate.
Qed.

Lemma loop_invariant_run (lines : list string) :
  loop_invariant lines (run_lines lines initial_state).
Proof.
  induction lines as [|l lines IH] using rev_ind.
  - split; [intros k [] | discriminate].
  - rewrite run_lines_app. now apply loop_invariant_step.
Qed.

(** ** The key pattern *)

Lemma key_brace_here_spec (s n : string) :
  key_brace_here s = Some n <-> key_occurs_at s EmptyString n.
Proof.
  unfold key_brace_here, key_occurs_at, valid_name. cbn [String.append]. split.
  - destruct (Re.lit OPEN_KEY s) as [r|] eqn:E1; [|discriminate].
    destruct (Re.plus not_quote r) as [[k r']|] eqn:E2; [|discriminate].
    destruct (Re.lit CLOSE_KEY_BRACE r') as [rest|] eqn:E3; [|discriminate].
    intros [= <-]. exists rest.
    apply lit_spec in E1. apply lit_spec in E3.
    apply plus_spec in E2 as (Hr & Hne & Hall & _).
    subst s r r'. now repeat split.
  - intros (rest & -> & Hne & Hall).
    rewrite lit_app.
    assert (E : Re.plus not_quote (n +:+ CLOSE_KEY_BRACE +:+ rest)
                = Some (n, CLOSE_KEY_BRACE +:+ rest)).
    { apply plus_spec. now repeat split. }
    rewrite E. now rewrite lit_app.
Qed.

Lemma item_name_match_spec (line n : string) :
  item_name_match line = Some n <->
  exists ws, Py.all_chars Py.isspace ws = true /\ key_occurs_at line ws n.
Proof.
  unfold item_name_match.
  destruct (Re.span Py.isspace line) as [a b] eqn:E.
  apply span_spec in E as (Hl & Ha & Hb). cbn [snd]. rewrite key_brace_here_spec.
  unfold key_occurs_at. cbn [String.append]. split.
  - intros (rest & -> & Hv). exists a. split; [exact Ha|]. now exists rest.
  - intros (ws & Hws & rest & Hline & Hv). exists rest. split; [|exact Hv].
    assert (E : Re.span Py.isspace line
                = (ws, OPEN_KEY +:+ n +:+ CLOSE_KEY_BRACE +:+ rest)).
    { apply span_spec. now repeat split. }
    assert (E' : Re.span Py.isspace line = (a, b)) by now apply span_spec.
    congruence.
Qed.

Lemma realm_match_some (lua_data n : string) :
  realm_match lua_data = Some n <->
  exists pre,
    key_occurs_at lua_data pre n /\
    forall pre' n', key_occurs_at lua_data pre' n' ->
                    (String.length pre <= String.length pre')%nat.
Proof.
  unfold realm_match. rewrite search_some. split.
  - intros (pre & suf & Hs & Hm & Hfirst).
    apply key_brace_here_spec in Hm as (rest & Hsuf & Hv). cbn [String.append] in Hsuf.
    exists pre. split.
    + exists rest. now rewrite Hs, Hsuf.
    + intros pre' n' (rest' & Hs' & Hv').
      destruct (Nat.le_gt_cases (String.length pre) (String.length pre'))
        as [Hle | Hlt]; [exact Hle|].
      specialize (Hfirst pre' _ Hs' Hlt).
      assert (Hk : key_brace_here (OPEN_KEY +:+ n' +:+ CLOSE_KEY_BRACE +:+ rest')
                   = Some n').
      { apply key_brace_here_spec. now exists rest'. }
      congruence.
  - intros (pre & (rest & Hs & Hv) & Hmin).
    exists pre, (OPEN_KEY +:+ n +:+ CLOSE_KEY_BRACE +:+ rest). repeat split.
    + exact Hs.
    + apply key_brace_here_spec. now exists rest.
    + intros pre' suf' Hs' Hlt.
      destruct (key_brace_here suf') as [n'|] eqn:E; [|reflexivity].
      apply key_brace_here_spec in E as (rest' & Hsuf' & Hv'). cbn [String.append] in Hsuf'.
      assert (Hocc : key_occurs_at lua_data pre' n').
      { exists rest'. now rewrite Hs', Hsuf'. }
      apply Hmin in Hocc. lia.
Qed.

Lemma realm_match_none (lua_data : string) :
  realm_match lua_data = None <->
  forall pre n, ~ key_occurs_at lua_data pre n.
Proof.
  unfold realm_match. rewrite search_none. split.
  - intros H pre n (rest & Hs & Hv).
    specialize (H pre _ Hs).
    assert (Hk : key_brace_here (OPEN_KEY +:+ n +:+ CLOSE_KEY_BRACE +:+ rest)
                 = Some n).
    { apply key_brace_here_spec. now exists rest. }
    congruence.
  - intros H pre suf Hs.
    destruct (key_brace_here suf) as [n|] eqn:E; [|reflexivity].
    apply key_brace_here_spec in E as (rest & Hsuf & Hv). cbn [String.append] in Hsuf.
    destruct (H pre n). exists rest. now rewrite Hs, Hsuf.
Qed.

(** ** Locating the literal *)

Lemma parse_lua_file_located (content lua_data : string) :
  database_search content = Some lua_data ->
  parse_lua_file content = parse_literal lua_data.
Proof. unfold parse_lua_file. now intros ->. Qed.

Lemma database_search_delimited (content : string) :
  database_search content <> None <-> literal_delimited content.
Proof.
  unfold database_search, literal_delimited. split.
  - destruct (Re.search database_match_here content) as [lua|] eqn:E;
      [intros _ | congruence].
    apply search_some in E as (pre & suf & Hs & Hm & _).
    unfold database_match_here in Hm.
    destruct (Re.lit (START_TOKEN +:+ "{") suf) as [r|] eqn:E1; [|discriminate].
    destruct (Re.until _ r) as [[body post]|] eqn:E2; [|discriminate].
    apply lit_spec in E1. apply until_some in E2.
    exists pre, body, post. rewrite Hs, E1, E2.
    unfold START_MARKER, END_MARKER. now rewrite !sapp_assoc.
  - intros (pre & body & post & Hs) E.
    unfold database_search in E. rewrite search_none in E.
    specialize (E pre _ Hs). unfold database_match_here in E.
    unfold START_MARKER in E. rewrite lit_app in E.
    destruct (Re.until ("}" +:+ Py.nl +:+ END_TOKEN)
                (body +:+ "}" +:+ END_MARKER +:+ post)) as [[a b]|] eqn:E2;
      [discriminate|].
    rewrite until_none in E2. apply (E2 body post).
    unfold END_MARKER. now rewrite !sapp_assoc.
Qed.

Lemma literal_delimited_in_order (content : string) :
  literal_delimited content -> markers_in_order content.
Proof.
  intros (pre & body & post & ->). exists pre, (body +:+ "}"), post.
  now rewrite !sapp_assoc.
Qed.

Lemma markers_in_orderb_spec (content : string) :
  markers_in_orderb content = true <-> markers_in_order content.
Proof.
  unfold markers_in_orderb, markers_in_order. split.
  - destruct (Re.search start_then_end content) as [u|] eqn:E; [intros _|discriminate].
    apply search_some in E as (pre & suf & Hs & Hm & _).
    unfold start_then_end in Hm.
    destruct (Re.lit START_MARKER suf) as [r|] eqn:E1; [|discriminate].
    destruct (Re.until END_MARKER r) as [[mid post]|] eqn:E2; [|discriminate].
    apply lit_spec in E1. apply until_some in E2.
    exists pre, mid, post. now rewrite Hs, E1, E2.
  - intros (pre & mid & post & Hs).
    destruct (Re.search start_then_end content) as [u|] eqn:E; [reflexivity|].
    rewrite search_none in E. specialize (E pre _ Hs).
    unfold start_then_end in E. rewrite lit_app in E.
    destruct (Re.until END_MARKER (mid +:+ END_MARKER +:+ post)) as [[a b]|] eqn:E2;
      [discriminate|].
    rewrite until_none in E2. now destruct (E2 mid post).
Qed.

(** ** Series-field lines *)

Lemma all_chars_impl (f g : ascii -> bool) (s : string) :
  (forall c, f c = true -> g c = true) ->
  Py.all_chars f s = true -> Py.all_chars g s = true.
Proof.
  intros Hfg. induction s as [|c s IH]; simpl; [reflexivity|].
  intros H. apply andb_prop in H as [Hc Hs]. now rewrite (Hfg c Hc), IH.
Qed.

Lemma isdecimal_not_quote (c : ascii) :
  Py.isdecimal c = true -> not_quote c = true.
Proof.
  intros H. unfold not_quote.
  destruct (Ascii.eqb_spec c Py.DQ) as [->|_]; [discriminate | reflexivity].
Qed.

Lemma isdecimal_isdigit_char (c : ascii) :
  Py.isdecimal c = true -> Py.isdigit_char c = true.
Proof. unfold Py.isdigit_char. now intros ->. Qed.

(** A pattern that starts with [c] cannot match inside a text without
    [c]. *)
Lemma search_skip {A : Type} (m : string -> option A) (c : ascii) (pre suf : string) :
  (forall s x, m s = Some x -> exists t, s = String c t) ->
  Py.count c pre = O ->
  Re.search m (pre +:+ suf) = Re.search m suf.
Proof.
  intros Hm. induction pre as [|x pre IH]; intros Hc; [reflexivity|].
  simpl in Hc. destruct (Ascii.eqb_spec x c) as [->|Hne]; [discriminate|].
  cbn [String.append Re.search].
  destruct (m (String x (pre +:+ suf))) as [r|] eqn:E.
  - apply Hm in E as [t [= Hx _]]. contradiction.
  - apply IH. exact Hc.
Qed.

(** The text before the first opening bracket is determined. *)
Lemma first_bracket_unique (a a' x x' : string) :
  a +:+ String "[" x = a' +:+ String "[" x' ->
  Py.count "[" a = O -> Py.count "[" a' = O -> a = a' /\ x = x'.
Proof.
  revert a'. induction a as [|c a IH]; intros [|c' a'] H Ha Ha'; simpl in *.
  - injection H as ->. now split.
  - injection H as <- _. simpl in Ha'. discriminate.
  - injection H as -> _. simpl in Ha. discriminate.
  - injection H as <- H.
    destruct (Ascii.eqb c "["); [discriminate|].
    destruct (IH a' H Ha Ha') as [-> ->]. now split.
Qed.

Section SeriesLine.

Variables (pre ds value rest : string).
Hypothesis pre_no_bracket : Py.count "[" pre = O.
Hypothesis ds_nonempty : ds <> EmptyString.
Hypothesis ds_decimal : Py.all_chars Py.isdecimal ds = true.
Hypothesis value_nonempty : value <> EmptyString.
Hypothesis value_decimal : Py.all_chars Py.isdecimal value = true.
Hypothesis rest_no_digit : Re.head_fails Py.isdecimal rest.



Lemma series_key_is_history_key : is_history_key (series_key ds) = true.
Proof.
  unfold is_history_key, series_key. simpl.
  assert (H : Py.all_chars Py.isdigit_char ds = true).
  { apply (all_chars_impl Py.isdecimal); [apply isdecimal_isdigit_char | exact ds_decimal]. }
  unfold Py.isdigit. destruct ds; [now destruct ds_nonempty | exact H].
Qed.


End SeriesLine.

(** ** The projection *)

Lemma history_fold_get (d h : dict Z) (k : string) :
  NoDup (dict_keys d) ->
  dict_get k
    (fold_left
       (fun h kv => if is_history_key (fst kv) then dict_set (fst kv) (snd kv) h else h)
       d h)
  = if is_history_key k
    then match dict_get k d with Some v => Some v | None => dict_get k h end
    else dict_get k h.
Proof.
  revert h. induction d as [|[k0 v0] d IH]; intros h Hnd; simpl.
  - now destruct (is_history_key k).
  - inversion Hnd as [|? ? Hnot Hnd']; subst. rewrite IH by assumption.
    destruct (String.eqb_spec k0 k) as [->|Hne].
    + assert (Hnone : dict_get k d = None).
      { destruct (dict_get k d) eqn:E; [|reflexivity].
        destruct Hnot. apply dict_get_in_keys. eauto. }
      rewrite Hnone. destruct (is_history_key k); [|reflexivity].
      apply dict_get_set_eq.
    + destruct (is_history_key k0); [|reflexivity].
      rewrite dict_get_set_neq by congruence. reflexivity.
Qed.

(** The history map holds exactly the entries whose key passes the test of
    line 113. *)
Lemma history_of_get (d : dict Z) (k : string) :
  NoDup (dict_keys d) ->
  dict_get k (history_of d) = if is_history_key k then dict_get k d else None.
Proof.
  intros Hnd. unfold history_of. rewrite history_fold_get by assumption.
  simpl. now destruct (is_history_key k), (dict_get k d).
Qed.

Lemma extract_fields_nodup (line : string) (data : dict Z) :
  NoDup (dict_keys data) -> NoDup (dict_keys (extract_fields line data)).
Proof.
  intros Hnd. unfold extract_fields.
  destruct (hist_match line) as [[k v]|], (mr_match line), (scan_match line);
    repeat apply dict_keys_set_nodup; exact Hnd.
Qed.

(** The accumulator of the loop never holds a key twice. *)
Lemma step_data_nodup (st : loop_state) (line : string) :
  NoDup (dict_keys (current_item_data st)) ->
  NoDup (dict_keys (current_item_data (step st line))).
Proof.
  intros Hnd. unfold step, open_step, field_step.
  destruct (item_name_line line); [constructor|].
  destruct (Py.truthy_name _); [|exact Hnd].
  destruct (String.eqb _ _); cbn [current_item_data]; [constructor|].
  now apply extract_fields_nodup.
Qed.

Lemma run_data_nodup (lines : list string) :
  NoDup (dict_keys (current_item_data (run_lines lines initial_state))).
Proof.
  induction lines as [|l lines IH] using rev_ind; [constructor|].
  rewrite run_lines_app. now apply step_data_nodup.
Qed.

(** * The properties *)

(** ** Locator *)

(** C4. When the start marker or the end marker is missing, or the end
    marker does not come after the start marker, [parse_lua_file] returns
    the empty dict, with no realm and no items; it is a total function, and
    the empty dict is returned exactly when the content does not hold the
    delimited literal that the pattern of line 12 looks for. *)
Theorem C4_missing_markers_give_empty_result (content : string) :
  (~ markers_in_order content ->
   parse_lua_file content = EmptyDict /\
   result_realm (parse_lua_file content) = None /\
   result_items (parse_lua_file content) = []) /\
  (parse_lua_file content = EmptyDict <-> ~ literal_delimited content).
Proof.
  assert (Hiff : parse_lua_file content = EmptyDict <-> ~ literal_delimited content).
  { rewrite <- database_search_delimited. unfold parse_lua_file, parse_literal.
    destruct (database_search content) as [lua|].
    - split; [discriminate | intros H; now destruct H].
    - split; [intros _ H; now apply H | reflexivity]. }
  split; [|exact Hiff].
  intros Hno.
  assert (E : parse_lua_file content = EmptyDict).
  { apply Hiff. intros Hd. apply Hno. now apply literal_delimited_in_order. }
  rewrite E. now repeat split.
Qed.

Lemma C4_witness :
  parse_lua_file no_end_marker_file = EmptyDict /\
  result_realm (parse_lua_file no_end_marker_file) = None /\
  result_items (parse_lua_file no_end_marker_file) = [].
Proof.
  apply (proj1 (C4_missing_markers_give_empty_result no_end_marker_file)).
  intros H. apply markers_in_orderb_spec in H. vm_compute in H. discriminate.
Defined.

(** C7 (amended). The realm is the name of the first bracket-quoted key
    followed by an opening brace anywhere in the located literal, at
    whatever nesting depth it stands; when the literal holds no such key at
    any depth, the realm is [None], and the parse still returns a result. *)
Theorem C7_realm_is_first_key_at_any_depth (content lua_data : string) :
  database_search content = Some lua_data ->
  (forall n,
     result_realm (parse_lua_file content) = Some n <->
     exists pre,
       key_occurs_at lua_data pre n /\
       forall pre' n', key_occurs_at lua_data pre' n' ->
                       (String.length pre <= String.length pre')%nat) /\
  (result_realm (parse_lua_file content) = None <->
   forall pre n, ~ key_occurs_at lua_data pre n) /\
  (exists its,
     parse_lua_file content = Parsed (result_realm (parse_lua_file content)) its /\
     option_map out_realm (main_output (parse_lua_file content))
     = Some (result_realm (parse_lua_file content))).
Proof.
  intros Hloc. rewrite (parse_lua_file_located _ _ Hloc).
  unfold parse_literal. cbn [result_realm]. repeat split.
  - now apply realm_match_some.
  - now apply realm_match_some.
  - now apply realm_match_none.
  - now apply realm_match_none.
  - eexists. split; reflexivity.
Qed.

Lemma minimal_file_located :
  database_search minimal_file = Some (join_lines minimal_lines).
Proof. vm_compute. reflexivity. Qed.

Lemma C7_witness :
  exists pre,
    key_occurs_at (join_lines minimal_lines) pre "Realm1" /\
    forall pre' n', key_occurs_at (join_lines minimal_lines) pre' n' ->
                    (String.length pre <= String.length pre')%nat.
Proof.
  apply (proj1 (C7_realm_is_first_key_at_any_depth
                  minimal_file (join_lines minimal_lines)
                  minimal_file_located) "Realm1").
  vm_compute. reflexivity.
Defined.

(** C7, as stated, fails: a table under a numeric key precedes the realm
    and holds a bracket-quoted key of its own; the parse returns that inner
    key, which stands two braces deep, while the first such key at the
    outermost level is the realm. *)
Lemma C7_counterexample :
  database_search nested_first_file = Some nested_first_literal /\
  result_realm (parse_lua_file nested_first_file) = Some "inner" /\
  spec_scope_name nested_first_literal = Some "Realm1" /\
  (exists pre,
     key_occurs_at nested_first_literal pre "inner" /\ brace_depth pre = 2) /\
  result_realm (parse_lua_file nested_first_file)
  <> spec_scope_name nested_first_literal.
Proof.
  split; [vm_compute; reflexivity|].
  split; [vm_compute; reflexivity|].
  split; [vm_compute; reflexivity|].
  split.
  - exists ("{" +:+ Py.nl +:+ " [1] = {" +:+ Py.nl +:+ "  "). split.
    + eexists. split; [vm_compute; reflexivity|]. split; [discriminate | reflexivity].
    + vm_compute. reflexivity.
  - vm_compute. discriminate.
Qed.

(** ** Line classifier *)

(** C8. A line opens an entity exactly when, after leading whitespace, it
    holds a bracket-quoted name followed by an assignment of an opening
    brace, and the whole line holds exactly one opening bracket.  On such a
    line the iteration stops at the open step: the new entity starts with
    an empty accumulator and no field pattern is applied.  A line with more
    than one opening bracket never opens an entity and goes to the field
    step. *)
Theorem C8_entity_open_classification (line n : string) :
  (item_name_line line = Some n <->
   (exists ws, Py.all_chars Py.isspace ws = true /\ key_occurs_at line ws n) /\
   Py.count "[" line = 1%nat) /\
  (item_name_line line = Some n ->
   forall st, step st line = open_step st n /\
              current_item_name (step st line) = Some n /\
              current_item_data (step st line) = []) /\
  ((1 < Py.count "[" line)%nat ->
   item_name_line line = None /\
   forall st, step st line = field_step st line).
Proof.
  split; [|split].
  - unfold item_name_line. rewrite <- item_name_match_spec.
    destruct (item_name_match line) as [m|].
    + destruct (Nat.eqb_spec (Py.count "[" line) 1) as [Hc|Hc].
      * split; [intros [= <-]; now split | now intros [[= <-] _]].
      * split; [discriminate | intros [_ H]; contradiction].
    + split; [discriminate | intros [H _]; discriminate].
  - intros Ho st. rewrite (step_open st line n Ho). now repeat split.
  - intros Hc.
    assert (Hn : item_name_line line = None).
    { unfold item_name_line. destruct (item_name_match line); [|reflexivity].
      destruct (Nat.eqb_spec (Py.count "[" line) 1); [lia | reflexivity]. }
    split; [exact Hn|]. intros st. unfold step. now rewrite Hn.
Qed.

Lemma C8_witness :
  item_name_match nested_table_line = Some "Bag" /\
  item_name_line nested_table_line = None /\
  step widget_open nested_table_line
  = mk_state [] (Some "Widget") [("mr", 5000); ("lastScan", 5)].
Proof.
  destruct (proj2 (proj2 (C8_entity_open_classification nested_table_line "Bag")))
    as [Hn Hstep]; [vm_compute; lia|].
  split; [vm_compute; reflexivity|]. split; [exact Hn|].
  rewrite (Hstep widget_open). vm_compute. reflexivity.
Defined.

(** ** Entity assembler *)

Lemma parsed_items (content lua_data : string) :
  database_search content = Some lua_data ->
  result_items (parse_lua_file content)
  = items (run_lines (Py.split_nl lua_data) initial_state).
Proof. intros H. now rewrite (parse_lua_file_located _ _ H). Qed.

Lemma initial_keys_nodup : NoDup (dict_keys (items initial_state)).
Proof. constructor. Qed.

(** C2. An entity whose open line is followed by a body with at least one
    field line and then by a closing line (a terminator or another open
    line) appears exactly once among the keys of the output, under its
    declared name; every key of the output has such a span, so that an
    entity whose spans collect no field is absent; and a span without a
    field line leaves the items as they were when it was opened. *)
Theorem C2_entities_with_fields_appear_once (content lua_data n : string) :
  database_search content = Some lua_data ->
  (committed_span (Py.split_nl lua_data) n ->
   count_occ string_dec (dict_keys (result_items (parse_lua_file content))) n = 1%nat) /\
  (In n (dict_keys (result_items (parse_lua_file content))) ->
   committed_span (Py.split_nl lua_data) n) /\
  (forall pre l_open body l_close,
     item_name_line l_open = Some n ->
     forallb interior body = true ->
     existsb has_field body = false ->
     closes l_close = true ->
     items (run_lines (pre ++ l_open :: body ++ [l_close]) initial_state)
     = items (run_lines (pre ++ [l_open]) initial_state)).
Proof.
  intros Hloc. rewrite (parsed_items _ _ Hloc). split; [|split].
  - intros (pre & lo & body & lc & post & Hlines & Ho & Hb & Hc & Hf).
    rewrite Hlines.
    apply count_occ_nodup_in; [apply run_keys_nodup, initial_keys_nodup|].
    replace (pre ++ lo :: body ++ lc :: post)
      with (pre ++ (lo :: body ++ [lc]) ++ post)
      by (simpl; now rewrite <- app_assoc).
    rewrite !run_lines_app. apply run_keys_mono.
    destruct (run_span (run_lines pre initial_state) lo lc n body Ho Hb Hc) as [-> _].
    rewrite commit_truthy by now rewrite collect_truthy.
    apply dict_keys_set. now left.
  - apply (loop_invariant_run (Py.split_nl lua_data)).
  - intros pre lo body lc Ho Hb Hf Hc.
    replace (pre ++ lo :: body ++ [lc]) with (pre ++ (lo :: body ++ [lc]))
      by reflexivity.
    rewrite !run_lines_app.
    destruct (run_span (run_lines pre initial_state) lo lc n body Ho Hb Hc) as [-> _].
    rewrite commit_falsy by now rewrite collect_truthy.
    unfold run_lines at 1. simpl. now rewrite (step_open _ lo n Ho).
Qed.

Lemma C2_witness :
  count_occ string_dec
    (dict_keys (result_items (parse_lua_file minimal_file))) "Widget" = 1%nat.
Proof.
  apply (proj1 (C2_entities_with_fields_appear_once
                  minimal_file (join_lines minimal_lines) "Widget"
                  minimal_file_located)).
  exists (firstn 2 minimal_lines), (nth 2 minimal_lines EmptyString),
         (firstn 4 (skipn 3 minimal_lines)), (nth 7 minimal_lines EmptyString),
         (skipn 8 minimal_lines).
  repeat split; vm_compute; reflexivity.
Defined.

(** C3 (amended). When the name [n] is opened twice, each occurrence with
    a body that holds a field line, the second body is followed by a line
    that closes it (a terminator or an entity-open line), and no line after
    the second occurrence opens [n] again, the output holds [n] exactly
    once and its record is the fields of the second body alone. *)
Theorem C3_reopened_entity_keeps_second_occurrence
    (content lua_data n : string)
    (pre1 : list string) (open1 : string) (body1 mid : list string)
    (open2 : string) (body2 : list string) (close2 : string) (post : list string) :
  database_search content = Some lua_data ->
  Py.split_nl lua_data
  = pre1 ++ open1 :: body1 ++ mid ++ open2 :: body2 ++ close2 :: post ->
  item_name_line open1 = Some n ->
  forallb interior body1 = true -> existsb has_field body1 = true ->
  item_name_line open2 = Some n ->
  forallb interior body2 = true -> existsb has_field body2 = true ->
  closes close2 = true ->
  forallb (fun l => negb (opens n l)) (close2 :: post) = true ->
  count_occ string_dec (dict_keys (result_items (parse_lua_file content))) n = 1%nat /\
  dict_get n (result_items (parse_lua_file content)) = Some (collect body2).
Proof.
  intros Hloc Hlines Ho1 Hb1 Hf1 Ho2 Hb2 Hf2 Hc2 Hlast.
  rewrite (parsed_items _ _ Hloc), Hlines.
  assert (Hget : dict_get n
            (items (run_lines
               (pre1 ++ open1 :: body1 ++ mid ++ open2 :: body2 ++ close2 :: post)
               initial_state))
          = Some (collect body2)).
  { replace (pre1 ++ open1 :: body1 ++ mid ++ open2 :: body2 ++ close2 :: post)
      with ((pre1 ++ open1 :: body1 ++ mid) ++ (open2 :: body2 ++ [close2]) ++ post)
      by (simpl; rewrite <- !app_assoc; simpl; now rewrite <- !app_assoc).
    rewrite (run_lines_app (pre1 ++ open1 :: body1 ++ mid)).
    rewrite (run_lines_app (open2 :: body2 ++ [close2]) post).
    set (st := run_lines (pre1 ++ open1 :: body1 ++ mid) initial_state).
    destruct (run_span st open2 close2 n body2 Ho2 Hb2 Hc2) as [Hits Hname].
    simpl in Hlast. apply andb_prop in Hlast as [Hcl Hpost].
    rewrite run_get_unchanged; [| exact Hpost |].
    - rewrite Hits, commit_truthy by now rewrite collect_truthy.
      apply dict_get_set_eq.
    - rewrite Hname. unfold opens in Hcl.
      destruct (item_name_line close2) as [m|]; [|discriminate].
      destruct (String.eqb_spec m n); [discriminate | congruence]. }
  split; [|exact Hget].
  apply count_occ_nodup_in; [apply run_keys_nodup, initial_keys_nodup|].
  apply dict_get_in_keys. eauto.
Qed.

Lemma reopened_file_located :
  database_search reopened_file = Some (join_lines reopened_lines).
Proof. vm_compute. reflexivity. Qed.

Lemma C3_witness :
  count_occ string_dec
    (dict_keys (result_items (parse_lua_file reopened_file))) "Widget" = 1%nat /\
  dict_get "Widget" (result_items (parse_lua_file reopened_file))
  = Some [("mr", 5000); ("H5554", 5100)].
Proof.
  apply (C3_reopened_entity_keeps_second_occurrence
           reopened_file (join_lines reopened_lines) "Widget"
           (firstn 2 reopened_lines) (nth 2 reopened_lines EmptyString)
           (firstn 2 (skipn 3 reopened_lines)) (firstn 4 (skipn 5 reopened_lines))
           (nth 9 reopened_lines EmptyString)
           (firstn 2 (skipn 10 reopened_lines))
           (nth 12 reopened_lines EmptyString) (skipn 13 reopened_lines)
           reopened_file_located);
    vm_compute; reflexivity.
Defined.

(** C9. An entity whose open line is followed, up to the last line of the
    literal, only by lines that neither open an entity nor strip to the
    terminator, is not committed: the items are those that were there when
    it was opened, whatever fields it collected, and when no earlier line
    opens the same name the output lacks it.  A closing brace without a
    comma is not a terminator. *)
Theorem C9_open_entity_at_end_not_committed
    (content lua_data n : string) (pre : list string) (l_open : string)
    (body : list string) :
  database_search content = Some lua_data ->
  Py.split_nl lua_data = pre ++ l_open :: body ->
  item_name_line l_open = Some n ->
  forallb interior body = true ->
  result_items (parse_lua_file content)
  = items (run_lines (pre ++ [l_open]) initial_state) /\
  (existsb (opens n) pre = false ->
   ~ In n (dict_keys (result_items (parse_lua_file content)))) /\
  interior "}" = true.
Proof.
  intros Hloc Hlines Ho Hb.
  assert (Hn := item_name_line_nonempty _ _ Ho).
  assert (Hits : result_items (parse_lua_file content)
                 = items (run_lines (pre ++ [l_open]) initial_state)).
  { rewrite (parsed_items _ _ Hloc), Hlines.
    replace (pre ++ l_open :: body) with ((pre ++ [l_open]) ++ body)
      by now rewrite <- app_assoc.
    rewrite (run_lines_app (pre ++ [l_open]) body).
    rewrite (run_lines_app pre [l_open]). unfold run_lines at 2 4. simpl.
    rewrite (step_open _ l_open n Ho).
    set (st := open_step (run_lines pre initial_state) n).
    replace st with (mk_state (items st) (Some n) []) by reflexivity.
    now rewrite run_interior. }
  split; [exact Hits | split; [|reflexivity]].
  intros Hpre Hin. rewrite Hits in Hin.
  destruct (loop_invariant_run (pre ++ [l_open])) as [I1 _].
  apply I1 in Hin.
  destruct Hin as (p & lo & b & lc & post & Heq & Hlo & Hbi & Hc & Hf).
  assert (Hopened : existsb (opens n) (p ++ [lo]) = true).
  { apply existsb_exists. exists lo. split; [apply in_or_app; right; now left|].
    unfold opens. rewrite Hlo. apply String.eqb_refl. }
  assert (Hprefix : exists tl, pre = (p ++ [lo]) ++ tl).
  { assert (Heq' : pre ++ [l_open] = ((p ++ [lo]) ++ b) ++ lc :: post).
    { rewrite Heq. rewrite <- !app_assoc. reflexivity. }
    destruct post as [|x post] using rev_ind.
    - apply app_inj_tail in Heq' as [-> _]. now exists b.
    - clear IHpost. rewrite app_comm_cons, app_assoc in Heq'.
      apply app_inj_tail in Heq' as [-> _].
      exists (b ++ lc :: post). now rewrite <- !app_assoc. }
  destruct Hprefix as [tl ->]. rewrite existsb_app, Hopened in Hpre. discriminate.
Qed.

Lemma unterminated_file_located :
  database_search unterminated_file = Some (join_lines unterminated_lines).
Proof. vm_compute. reflexivity. Qed.

Lemma C9_witness :
  result_items (parse_lua_file unterminated_file) = [("Gadget", [("mr", 10)])] /\
  ~ In "Widget" (dict_keys (result_items (parse_lua_file unterminated_file))).
Proof.
  destruct (C9_open_entity_at_end_not_committed
              unterminated_file (join_lines unterminated_lines) "Widget"
              (firstn 5 unterminated_lines) (nth 5 unterminated_lines EmptyString)
              (skipn 6 unterminated_lines) unterminated_file_located)
    as (Hits & Habsent & _); try (vm_compute; reflexivity).
  split; [rewrite Hits; vm_compute; reflexivity|].
  apply Habsent. vm_compute. reflexivity.
Defined.

(** ** Projection of the records *)

(** C5. On the minimal file of the concrete scenario the projected output
    is the realm Realm1 and the single record of Widget, with its two fixed
    fields and its two history points. *)
Theorem C5_minimal_scenario :
  main_output (parse_lua_file minimal_file)
  = Some (mk_output (Some "Realm1")
            [mk_entry "Widget" 12345 5000 [("H5553", 4800); ("H5554", 5100)]]).
Proof. vm_compute. reflexivity. Qed.

(** C6. Every committed entity has its projected record in the output, in
    which a fixed field that the accumulated fields lack is 0 and a fixed
    field that they hold keeps its value; the entity whose only field is
    [lastScan] is kept, with [mr] 0 and an empty history map. *)
Theorem C6_missing_fixed_fields_default_to_zero
    (data : parse_result) (out : output) (n : string) (d : dict Z) :
  main_output data = Some out ->
  In (n, d) (result_items data) ->
  (exists e,
     In e (out_items out) /\ name e = n /\
     (dict_get "lastScan" d = None -> lastScan e = 0) /\
     (dict_get "mr" d = None -> mr e = 0) /\
     (forall v, dict_get "lastScan" d = Some v -> lastScan e = v) /\
     (forall v, dict_get "mr" d = Some v -> mr e = v)) /\
  main_output (parse_lua_file lastscan_only_file)
  = Some (mk_output (Some "Realm1") [mk_entry "Widget" 1 0 []]).
Proof.
  intros Hout Hin. split; [|vm_compute; reflexivity].
  destruct data as [|r its]; [discriminate|].
  simpl in Hout, Hin. injection Hout as <-.
  exists (project_item n d). split.
  - cbn [out_items]. apply (in_map (fun kv => project_item (fst kv) (snd kv)) its (n, d) Hin).
  - cbn [name lastScan mr project_item]. unfold dict_get_default.
    repeat split; intros; now rewrite H.
Qed.

Lemma C6_witness :
  exists e,
    In e [mk_entry "Widget" 1 0 []] /\ name e = "Widget" /\
    (dict_get "lastScan" [("lastScan", 1)] = None -> lastScan e = 0) /\
    (dict_get "mr" [("lastScan", 1)] = None -> mr e = 0) /\
    (forall v, dict_get "lastScan" [("lastScan", 1)] = Some v -> lastScan e = v) /\
    (forall v, dict_get "mr" [("lastScan", 1)] = Some v -> mr e = v).
Proof.
  apply (C6_missing_fixed_fields_default_to_zero
           (parse_lua_file lastscan_only_file)
           (mk_output (Some "Realm1") [mk_entry "Widget" 1 0 []])
           "Widget" [("lastScan", 1)]).
  - vm_compute. reflexivity.
  - vm_compute. left. reflexivity.
Defined.

(** ** Currency display *)

(** C10. For a non-negative amount of copper the gold, silver and copper
    parts computed by [convert_copper_to_gold] recompose the amount with
    weights 10000, 100 and 1, silver and copper lie in 0..99, gold is not
    negative, and the string shows the parts from the first non-zero one
    on, the copper part in any case. *)
Theorem C10_copper_decomposition (copper : Z) :
  0 <= copper ->
  copper = 10000 * gold_of copper + 100 * silver_of copper + copper_remainder_of copper /\
  0 <= silver_of copper < 100 /\
  0 <= copper_remainder_of copper < 100 /\
  0 <= gold_of copper /\
  convert_copper_to_gold copper
  = (if 0 <? gold_of copper
     then Py.str (gold_of copper) +:+ "g " +:+ Py.str (silver_of copper) +:+ "s "
          +:+ Py.str (copper_remainder_of copper) +:+ "c"
     else if 0 <? silver_of copper
     then Py.str (silver_of copper) +:+ "s " +:+ Py.str (copper_remainder_of copper) +:+ "c"
     else Py.str (copper_remainder_of copper) +:+ "c") /\
  (gold_of copper = 0 -> copper = 100 * silver_of copper + copper_remainder_of copper) /\
  (gold_of copper = 0 -> silver_of copper = 0 -> copper = copper_remainder_of copper).
Proof.
  intros Hc. unfold gold_of, silver_of, copper_remainder_of.
  assert (H1 := Z.div_mod copper 10000 ltac:(lia)).
  assert (H2 := Z.div_mod (copper mod 10000) 100 ltac:(lia)).
  assert (H3 : (copper mod 10000) mod 100 = copper mod 100).
  { apply Z.mod_mod_divide. exists 100. reflexivity. }
  assert (B1 := Z.mod_pos_bound copper 10000 ltac:(lia)).
  assert (B2 := Z.mod_pos_bound copper 100 ltac:(lia)).
  assert (B3 : 0 <= (copper mod 10000) / 100 < 100).
  { split; [apply Z.div_pos; lia | apply Z.div_lt_upper_bound; lia]. }
  assert (B4 : 0 <= copper / 10000) by (apply Z.div_pos; lia).
  repeat split; try lia; reflexivity.
Qed.

Lemma C10_witness :
  123456 = 10000 * gold_of 123456 + 100 * silver_of 123456 + copper_remainder_of 123456 /\
  convert_copper_to_gold 123456 = "12g 34s 56c".
Proof.
  destruct (C10_copper_decomposition 123456) as (Heq & _ & _ & _ & Hstr & _).
  - lia.
  - split; [exact Heq | rewrite Hstr; vm_compute; reflexivity].
Defined.

(** * Further properties of the code *)

(** ** Output names and their order *)

Lemma output_names_keys (data : parse_result) :
  output_names data = dict_keys (result_items data).
Proof.
  unfold output_names. destruct data as [|r its]; [reflexivity|].
  cbn [main_output out_items result_items]. unfold dict_keys.
  rewrite map_map. reflexivity.
Qed.

Lemma parse_items_nodup (content : string) :
  NoDup (dict_keys (result_items (parse_lua_file content))).
Proof.
  unfold parse_lua_file. destruct (database_search content) as [lua|].
  - apply run_keys_nodup, initial_keys_nodup.
  - constructor.
Qed.

(** X1. The records that [main] writes have pairwise distinct names, and
    they are the keys of the parsed items in the same order. *)
Theorem X1_output_names_distinct (content : string) :
  NoDup (output_names (parse_lua_file content)) /\
  output_names (parse_lua_file content)
  = dict_keys (result_items (parse_lua_file content)).
Proof.
  rewrite output_names_keys. split; [apply parse_items_nodup | reflexivity].
Qed.

Lemma dict_keys_set_extends {V : Type} (k : string) (v : V) (d : dict V) :
  exists tail, dict_keys (dict_set k v d) = dict_keys d ++ tail.
Proof.
  unfold dict_keys. induction d as [|[k0 v0] d [tail IH]]; simpl.
  - now exists [k].
  - destruct (String.eqb k0 k); simpl.
    + exists []. now rewrite app_nil_r.
    + exists tail. now rewrite IH.
Qed.

Lemma run_keys_extend (ls : list string) (st : loop_state) :
  exists tail,
    dict_keys (items (run_lines ls st)) = dict_keys (items st) ++ tail.
Proof.
  revert st. induction ls as [|l ls IH]; intros st.
  - exists []. now rewrite app_nil_r.
  - rewrite run_lines_cons. destruct (IH (step st l)) as [t1 ->].
    destruct (step_items st l) as [-> | (n & d & _ & _ & ->)].
    + now exists t1.
    + destruct (dict_keys_set_extends n d (items st)) as [t0 ->].
      exists (t0 ++ t1). now rewrite app_assoc.
Qed.

(** X2. Reading further lines never removes or reorders the names that are
    committed: the keys after a prefix of the lines are an initial segment
    of the keys after all the lines, so the items stand in the order of
    their first commit. *)
Theorem X2_names_keep_first_commit_order (seen more : list string) :
  exists tail,
    dict_keys (items (run_lines (seen ++ more) initial_state))
    = dict_keys (items (run_lines seen initial_state)) ++ tail.
Proof. rewrite run_lines_app. apply run_keys_extend. Qed.

(** ** Lines outside an entity *)

Lemma step_closed_not_open (its : dict (dict Z)) (data : dict Z) (line : string) :
  is_open line = false ->
  step (mk_state its None data) line = mk_state its None data.
Proof.
  unfold is_open, step. destruct (item_name_line line); [discriminate|].
  reflexivity.
Qed.

(** X3. While no entity is open, lines that do not open one have no
    effect, whatever fields or terminators they hold: the text before the
    first entity-open line does not change the result. *)
Theorem X3_lines_before_first_entity_ignored (before rest : list string) :
  forallb (fun l => negb (is_open l)) before = true ->
  run_lines (before ++ rest) initial_state = run_lines rest initial_state.
Proof.
  intros H. rewrite run_lines_app. f_equal. unfold initial_state.
  induction before as [|l before IH]; [reflexivity|].
  simpl in H. apply andb_prop in H as [Hl H].
  rewrite run_lines_cons, step_closed_not_open by now apply negb_true_iff.
  now apply IH.
Qed.

Lemma X3_witness :
  run_lines ([ "{"; "   " +:+ qkey "mr" +:+ " = 5000,"; "}," ] ++ minimal_lines)
            initial_state
  = run_lines minimal_lines initial_state.
Proof.
  apply (X3_lines_before_first_entity_ignored
           [ "{"; "   " +:+ qkey "mr" +:+ " = 5000,"; "}," ] minimal_lines).
  vm_compute. reflexivity.
Defined.

(** ** Splitting into lines *)

Lemma split_nl_nonempty (s : string) : Py.split_nl s <> [].
Proof.
  destruct s as [|c s]; simpl; [discriminate|].
  destruct (Ascii.eqb c Py.LF); [discriminate|].
  destruct (Py.split_nl s); discriminate.
Qed.

(** X4. Splitting the literal at line feeds loses nothing: joining the
    lines with line feeds gives the literal back, no line holds a line
    feed, and there is one line more than there are line feeds. *)
Theorem X4_split_lines_lossless (s : string) :
  join_lines (Py.split_nl s) = s /\
  Forall (fun l => Py.count Py.LF l = O) (Py.split_nl s) /\
  List.length (Py.split_nl s) = S (Py.count Py.LF s).
Proof.
  induction s as [|c s (IHj & IHf & IHl)]; simpl.
  - repeat split. repeat constructor.
  - destruct (Ascii.eqb_spec c Py.LF) as [->|Hc].
    + pose proof (split_nl_nonempty s) as Hne.
      destruct (Py.split_nl s) as [|l ls] eqn:E; [contradiction|].
      repeat split.
      * change (join_lines (EmptyString :: l :: ls))
          with (EmptyString +:+ Py.nl +:+ join_lines (l :: ls)).
        rewrite IHj. reflexivity.
      * constructor; [reflexivity | exact IHf].
      * simpl in *. now rewrite IHl.
    + pose proof (split_nl_nonempty s) as Hne.
      destruct (Py.split_nl s) as [|l ls] eqn:E; [contradiction|].
      apply Forall_cons_iff in IHf as [Hl Hls].
      repeat split.
      * destruct ls as [|l' ls]; simpl in *; now rewrite <- IHj.
      * constructor; [|exact Hls]. simpl.
        destruct (Ascii.eqb_spec c Py.LF); [contradiction | exact Hl].
      * simpl in *. exact IHl.
Qed.

(** ** What the committed records hold *)

Lemma search_matches {A : Type} (m : string -> option A) (s : string) (r : A) :
  Re.search m s = Some r -> exists pre suf, s = pre +:+ suf /\ m suf = Some r.
Proof.
  intros H. apply search_some in H as (pre & suf & Hs & Hm & _). eauto.
Qed.

Lemma fixed_field_here_digits (key s v : string) :
  fixed_field_here key s = Some v ->
  v <> EmptyString /\ Py.all_chars Py.isdecimal v = true.
Proof.
  unfold fixed_field_here.
  destruct (Re.lit _ s) as [r|]; [|discriminate].
  destruct (Re.plus Py.isdecimal r) as [[v' r']|] eqn:E; [|discriminate].
  intros [= <-]. apply plus_spec in E as (_ & Hne & Hall & _). now split.
Qed.

Lemma hist_here_shape (s k v : string) :
  hist_here s = Some (k, v) ->
  (exists ds, k = series_key ds /\ ds <> EmptyString /\
              Py.all_chars Py.isdecimal ds = true) /\
  v <> EmptyString /\ Py.all_chars Py.isdecimal v = true.
Proof.
  unfold hist_here.
  destruct (Re.lit _ s) as [r|]; [|discriminate].
  destruct (Re.plus Py.isdecimal r) as [[ds r']|] eqn:E1; [|discriminate].
  destruct (Re.lit CLOSE_KEY_ASSIGN r') as [r''|]; [|discriminate].
  destruct (Re.plus Py.isdecimal r'') as [[v' r3]|] eqn:E2; [|discriminate].
  intros [= <- <-].
  apply plus_spec in E1 as (_ & Hne1 & Hall1 & _).
  apply plus_spec in E2 as (_ & Hne2 & Hall2 & _).
  split; [exists ds; now repeat split | now split].
Qed.

Lemma digit_value_nonneg (c : ascii) :
  Py.isdecimal c = true -> 0 <= Py.digit_value c <= 9.
Proof.
  unfold Py.isdecimal, Py.digit_value. cbv zeta. intros H.
  apply andb_prop in H as [H1 H2].
  apply Nat.leb_le in H1. apply Nat.leb_le in H2.
  generalize dependent (Py.code c). intros m H1 H2. lia.
Qed.

Lemma int_acc_nonneg (s : string) (acc : Z) :
  0 <= acc -> Py.all_chars Py.isdecimal s = true -> 0 <= Py.int_acc acc s.
Proof.
  revert acc. induction s as [|c s IH]; intros acc Hacc Hall;
    cbn [Py.int_acc]; [exact Hacc|].
  cbn [Py.all_chars] in Hall. apply andb_prop in Hall as [Hc Hs].
  apply IH; [|exact Hs]. pose proof (digit_value_nonneg c Hc). lia.
Qed.

Lemma int_nonneg (s : string) :
  Py.all_chars Py.isdecimal s = true -> 0 <= Py.int s.
Proof. apply int_acc_nonneg. lia. Qed.

Lemma in_dict_set {V : Type} (k k' : string) (v v' : V) (d : dict V) :
  In (k, v) (dict_set k' v' d) -> (k, v) = (k', v') \/ In (k, v) d.
Proof.
  induction d as [|[k0 v0] d IH]; simpl.
  - intros [H | []]. left. now symmetry.
  - destruct (String.eqb_spec k0 k') as [->|Hne]; simpl.
    + intros [H | H]; [left; now symmetry | right; now right].
    + intros [H | H]; [right; now left|].
      destruct (IH H) as [H' | H']; [now left | right; now right].
Qed.

Lemma fields_ok_nil : fields_ok [].
Proof. split; [constructor | intros k v []]. Qed.

Lemma fields_ok_set (k : string) (v : Z) (d : dict Z) :
  fields_ok d -> field_key k -> 0 <= v -> fields_ok (dict_set k v d).
Proof.
  intros [Hnd Hall] Hk Hv. split; [now apply dict_keys_set_nodup|].
  intros k' v' Hin. apply in_dict_set in Hin as [[= -> ->] | Hin]; [now split|].
  now apply Hall.
Qed.

Lemma extract_fields_ok (line : string) (d : dict Z) :
  fields_ok d -> fields_ok (extract_fields line d).
Proof.
  intros Hd. unfold extract_fields, scan_match, mr_match, hist_match.
  assert (H1 : fields_ok
            match Re.search (fixed_field_here "lastScan") line with
            | Some v => dict_set "lastScan" (Py.int v) d
            | None => d
            end).
  { destruct (Re.search (fixed_field_here "lastScan") line) as [v|] eqn:E;
      [|exact Hd].
    apply search_matches in E as (pre & suf & _ & E).
    apply fixed_field_here_digits in E as [_ Hall].
    apply fields_ok_set; [exact Hd | now left | now apply int_nonneg]. }
  set (d1 := match Re.search (fixed_field_here "lastScan") line with
             | Some v => dict_set "lastScan" (Py.int v) d
             | None => d
             end) in *.
  assert (H2 : fields_ok
            match Re.search (fixed_field_here "mr") line with
            | Some v => dict_set "mr" (Py.int v) d1
            | None => d1
            end).
  { destruct (Re.search (fixed_field_here "mr") line) as [v|] eqn:E;
      [|exact H1].
    apply search_matches in E as (pre & suf & _ & E).
    apply fixed_field_here_digits in E as [_ Hall].
    apply fields_ok_set; [exact H1 | right; now left | now apply int_nonneg]. }
  destruct (Re.search hist_here line) as [[k v]|] eqn:E; [|exact H2].
  apply search_matches in E as (pre & suf & _ & E).
  apply hist_here_shape in E as [Hk [_ Hall]].
  apply fields_ok_set; [exact H2 | right; now right | now apply int_nonneg].
Qed.

Lemma commit_ok (n : option string) (data : dict Z) (its : dict (dict Z)) :
  fields_ok data ->
  (forall m d, In (m, d) its -> d <> [] /\ fields_ok d) ->
  forall m d, In (m, d) (commit n data its) -> d <> [] /\ fields_ok d.
Proof.
  intros Hdata Hits m d. unfold commit.
  destruct (dict_truthy data) eqn:E; [|apply Hits].
  intros Hin. apply in_dict_set in Hin as [[= _ ->] | Hin];
    [|now apply (Hits m)].
  split; [|exact Hdata]. intros ->. discriminate.
Qed.

Lemma state_ok_step (st : loop_state) (line : string) :
  state_ok st -> state_ok (step st line).
Proof.
  intros [Hdata Hits]. unfold step, open_step, field_step.
  destruct (item_name_line line).
  - split; cbn [items current_item_data]; [apply fields_ok_nil|].
    destruct (Py.truthy_name _); [now apply commit_ok | exact Hits].
  - destruct (Py.truthy_name _); [|now split].
    pose proof (extract_fields_ok line _ Hdata) as Hext.
    destruct (String.eqb _ _); split; cbn [items current_item_data];
      try apply fields_ok_nil; try assumption.
    now apply commit_ok.
Qed.

Lemma state_ok_run (lines : list string) :
  state_ok (run_lines lines initial_state).
Proof.
  induction lines as [|l lines IH] using rev_ind.
  - split; [apply fields_ok_nil | intros n d []].
  - rewrite run_lines_app. now apply state_ok_step.
Qed.

Lemma parse_records_ok (content n : string) (d : dict Z) :
  In (n, d) (result_items (parse_lua_file content)) -> d <> [] /\ fields_ok d.
Proof.
  unfold parse_lua_file. destruct (database_search content) as [lua|]; [|intros []].
  apply (proj2 (state_ok_run (Py.split_nl lua))).
Qed.

(** X5. No record of the parse result is empty, and none holds a field
    name twice. *)
Theorem X5_records_nonempty_fields_distinct (content n : string) (d : dict Z) :
  In (n, d) (result_items (parse_lua_file content)) ->
  d <> [] /\ NoDup (dict_keys d).
Proof.
  intros H. apply parse_records_ok in H as [Hne [Hnd _]]. now split.
Qed.

Lemma minimal_widget_record :
  In ("Widget",
      [("lastScan", 12345); ("mr", 5000); ("H5553", 4800); ("H5554", 5100)])
     (result_items (parse_lua_file minimal_file)).
Proof. vm_compute. left. reflexivity. Qed.

Lemma X5_witness :
  [("lastScan", 12345); ("mr", 5000); ("H5553", 4800); ("H5554", 5100)] <> [] /\
  NoDup (dict_keys
           [("lastScan", 12345); ("mr", 5000); ("H5553", 4800); ("H5554", 5100)]).
Proof.
  apply (X5_records_nonempty_fields_distinct minimal_file "Widget").
  exact minimal_widget_record.
Defined.

(** X6. Every field of every record of the parse result is named
    lastScan, mr, or H followed by decimal digits, and its value is not
    negative. *)
Theorem X6_record_fields_known_and_nonnegative
    (content n : string) (d : dict Z) (k : string) (v : Z) :
  In (n, d) (result_items (parse_lua_file content)) ->
  In (k, v) d ->
  field_key k /\ 0 <= v.
Proof.
  intros H Hin. apply parse_records_ok in H as [_ [_ Hall]]. now apply Hall.
Qed.

Lemma X6_witness : field_key "H5553" /\ 0 <= 4800.
Proof.
  apply (X6_record_fields_known_and_nonnegative minimal_file "Widget" _ _ _
           minimal_widget_record).
  right. right. left. reflexivity.
Defined.

(** ** Entity names *)

Lemma item_name_line_name (line n : string) :
  item_name_line line = Some n ->
  valid_name n /\ Py.count "[" n = O.
Proof.
  unfold item_name_line.
  destruct (item_name_match line) as [m|] eqn:E; [|discriminate].
  destruct (Nat.eqb_spec (Py.count "[" line) 1) as [Hc|]; [|discriminate].
  intros [= ->].
  apply item_name_match_spec in E as (ws & _ & rest & Hline & Hv).
  split; [exact Hv|].
  rewrite Hline in Hc. unfold OPEN_KEY in Hc.
  rewrite !count_app in Hc. simpl in Hc. lia.
Qed.

(** X7. Every name of the parse result is not empty and holds neither a
    double quote nor an opening bracket: a line whose quoted name holds an
    opening bracket never opens an entity. *)
Theorem X7_entity_names_wellformed (content n : string) :
  In n (dict_keys (result_items (parse_lua_file content))) ->
  n <> EmptyString /\ Py.count Py.DQ n = O /\ Py.count "[" n = O.
Proof.
  unfold parse_lua_file. destruct (database_search content) as [lua|]; [|intros []].
  intros Hin. apply (loop_invariant_run (Py.split_nl lua)) in Hin.
  destruct Hin as (pre & lo & body & lc & post & _ & Ho & _).
  apply item_name_line_name in Ho as [[Hne Hq] Hb].
  repeat split; try assumption.
  apply (all_chars_count0 not_quote); [reflexivity | exact Hq].
Qed.

Lemma X7_witness :
  "Widget" <> EmptyString /\ Py.count Py.DQ "Widget" = O /\
  Py.count "[" "Widget" = O.
Proof.
  apply (X7_entity_names_wellformed minimal_file "Widget").
  vm_compute. left. reflexivity.
Defined.

(** ** Where the literal is found *)

Lemma sapp_length (a b : string) :
  String.length (a +:+ b) = (String.length a + String.length b)%nat.
Proof. induction a as [|x a IH]; simpl; [reflexivity | now rewrite IH]. Qed.

(** Two splittings of one text: the shorter left part is a prefix of the
    longer. *)
Lemma sapp_split_le (a b c d : string) :
  a +:+ b = c +:+ d ->
  (String.length c <= String.length a)%nat ->
  exists e, a = c +:+ e /\ d = e +:+ b.
Proof.
  revert a. induction c as [|y c IH]; intros a H Hlen; simpl in *.
  - exists a. split; [reflexivity | now symmetry].
  - destruct a as [|x a]; simpl in *; [lia|].
    injection H as -> H.
    destruct (IH a H ltac:(lia)) as (e & -> & ->). now exists e.
Qed.

Lemma until_first (p s a b : string) :
  Re.until p s = Some (a, b) ->
  forall a' b', s = a' +:+ p +:+ b' ->
                (String.length a <= String.length a')%nat.
Proof.
  revert a. induction s as [|c s IH]; intros a; simpl.
  - destruct (Re.lit p EmptyString); [|discriminate].
    intros [= <- _] a' b' _. simpl. lia.
  - destruct (Re.lit p (String c s)) as [r|] eqn:E.
    + intros [= <- _] a' b' _. simpl. lia.
    + destruct (Re.until p s) as [[a0 b0]|] eqn:E2; [|discriminate].
      intros [= <- <-] a' b' Hs. destruct a' as [|x a']; simpl in Hs.
      * apply lit_spec in Hs. congruence.
      * injection Hs as _ Hs. simpl. specialize (IH a0 eq_refl a' b' Hs). lia.
Qed.

(** X8. When the literal is found, the content is some text, the start
    token, the literal, a line feed, the end token and some text; the
    literal starts with an opening brace and ends with a closing brace; it
    starts at the first occurrence of the start marker in the content, and
    ends at the first closing brace after it that a line of the end token
    follows. *)
Theorem X8_located_literal_shape (content lua_data : string) :
  database_search content = Some lua_data ->
  exists pre body post,
    content = pre +:+ START_TOKEN +:+ lua_data +:+ END_MARKER +:+ post /\
    lua_data = "{" +:+ body +:+ "}" /\
    (forall pre' r', content = pre' +:+ START_MARKER +:+ r' ->
                     (String.length pre <= String.length pre')%nat) /\
    (forall body' post',
       body +:+ "}" +:+ END_MARKER +:+ post
       = body' +:+ "}" +:+ END_MARKER +:+ post' ->
       (String.length body <= String.length body')%nat).
Proof.
  unfold database_search. intros H.
  apply search_some in H as (pre & suf & Hs & Hm & Hfirst).
  unfold database_match_here in Hm.
  destruct (Re.lit (START_TOKEN +:+ "{") suf) as [r|] eqn:E1; [|discriminate].
  destruct (Re.until ("}" +:+ Py.nl +:+ END_TOKEN) r) as [[body post]|] eqn:E2;
    [|discriminate].
  injection Hm as <-.
  apply lit_spec in E1. pose proof (until_some _ _ _ _ E2) as Hr.
  exists pre, body, post. split; [|split; [reflexivity | split]].
  - rewrite Hs, E1, Hr. unfold END_MARKER.
    cbn [String.append]. rewrite ?sapp_assoc. cbn [String.append].
    rewrite ?sapp_assoc. reflexivity.
  - intros pre' r' Hc.
    destruct (Nat.le_gt_cases (String.length pre) (String.length pre'))
      as [Hle | Hlt]; [exact Hle | exfalso].
    specialize (Hfirst pre' _ Hc Hlt).
    unfold database_match_here, START_MARKER in Hfirst.
    rewrite lit_app in Hfirst.
    destruct (Re.until ("}" +:+ Py.nl +:+ END_TOKEN) r') as [[a b]|] eqn:E3;
      [discriminate|].
    rewrite until_none in E3.
    assert (Heq : (pre +:+ (START_TOKEN +:+ "{") +:+ body)
                  +:+ ("}" +:+ Py.nl +:+ END_TOKEN) +:+ post
                  = (pre' +:+ START_TOKEN +:+ "{") +:+ r').
    { transitivity content.
      - rewrite Hs, E1, Hr. now rewrite !sapp_assoc.
      - rewrite Hc at 1. unfold START_MARKER. now rewrite !sapp_assoc. }
    apply sapp_split_le in Heq as (e & _ & Hr').
    + now apply (E3 e post).
    + rewrite !sapp_length. lia.
  - intros body' post' Heq.
    apply (until_first _ _ _ _ E2 body' post'). rewrite Hr.
    unfold END_MARKER in Heq. rewrite !sapp_assoc. exact Heq.
Qed.

Lemma X8_witness :
  exists pre body post,
    minimal_file
    = pre +:+ START_TOKEN +:+ join_lines minimal_lines +:+ END_MARKER +:+ post /\
    join_lines minimal_lines = "{" +:+ body +:+ "}" /\
    (forall pre' r', minimal_file = pre' +:+ START_MARKER +:+ r' ->
                     (String.length pre <= String.length pre')%nat) /\
    (forall body' post',
       body +:+ "}" +:+ END_MARKER +:+ post
       = body' +:+ "}" +:+ END_MARKER +:+ post' ->
       (String.length body <= String.length body')%nat).
Proof.
  apply (X8_located_literal_shape minimal_file (join_lines minimal_lines)).
  vm_compute. reflexivity.
Defined.

(** ** Fixed fields and values that are not numbers *)

Lemma plus_none_head (f : ascii -> bool) (s : string) :
  Re.head_fails f s -> Re.plus f s = None.
Proof.
  intros H. unfold Re.plus. destruct s as [|c s]; simpl; [reflexivity|].
  simpl in H. now rewrite H.
Qed.

(** A key and what is assigned to it are determined by the text. *)
Lemma key_assign_unique (k1 r1 k2 r2 : string) :
  k1 +:+ CLOSE_KEY_ASSIGN +:+ r1 = k2 +:+ CLOSE_KEY_ASSIGN +:+ r2 ->
  Py.all_chars not_quote k1 = true -> Py.all_chars not_quote k2 = true ->
  k1 = k2 /\ r1 = r2.
Proof.
  intros H H1 H2.
  assert (S1 : Re.span not_quote (k1 +:+ CLOSE_KEY_ASSIGN +:+ r1)
               = (k1, CLOSE_KEY_ASSIGN +:+ r1)) by (now apply span_app).
  assert (S2 : Re.span not_quote (k2 +:+ CLOSE_KEY_ASSIGN +:+ r2)
               = (k2, CLOSE_KEY_ASSIGN +:+ r2)) by (now apply span_app).
  rewrite H, S2 in S1. injection S1 as Hk Hr.
  split; [now symmetry|]. unfold CLOSE_KEY_ASSIGN in Hr. simpl in Hr.
  congruence.
Qed.

Lemma fixed_field_here_assign (key k rest : string) :
  Py.all_chars not_quote key = true -> Py.all_chars not_quote k = true ->
  fixed_field_here key (OPEN_KEY +:+ k +:+ CLOSE_KEY_ASSIGN +:+ rest)
  = if String.eqb key k
    then match Re.plus Py.isdecimal rest with
         | Some (v, _) => Some v
         | None => None
         end
    else None.
Proof.
  intros Hkey Hk. unfold fixed_field_here.
  destruct (String.eqb_spec key k) as [->|Hne].
  - replace (OPEN_KEY +:+ k +:+ CLOSE_KEY_ASSIGN +:+ rest)
      with ((OPEN_KEY +:+ k +:+ CLOSE_KEY_ASSIGN) +:+ rest)
      by (now rewrite !sapp_assoc).
    now rewrite lit_app.
  - destruct (Re.lit _ _) as [r|] eqn:E; [|reflexivity].
    apply lit_spec in E. rewrite !sapp_assoc in E.
    unfold OPEN_KEY in E. simpl in E. injection E as E.
    apply key_assign_unique in E as [-> _]; [contradiction | exact Hk | exact Hkey].
Qed.

Lemma hist_here_assign (k rest : string) :
  Py.all_chars not_quote k = true ->
  Re.head_fails Py.isdecimal rest ->
  hist_here (OPEN_KEY +:+ k +:+ CLOSE_KEY_ASSIGN +:+ rest) = None.
Proof.
  intros Hk Hrest. destruct (hist_here _) as [[k' v]|] eqn:E; [exfalso|reflexivity].
  unfold hist_here in E.
  destruct (Re.lit (OPEN_KEY +:+ "H") _) as [r|] eqn:E1; [|discriminate].
  destruct (Re.plus Py.isdecimal r) as [[ds r']|] eqn:E2; [|discriminate].
  destruct (Re.lit CLOSE_KEY_ASSIGN r') as [r''|] eqn:E3; [|discriminate].
  destruct (Re.plus Py.isdecimal r'') as [[v' r3]|] eqn:E4; [|discriminate].
  apply lit_spec in E1. apply lit_spec in E3.
  apply plus_spec in E2 as (Hr & _ & Hds & _).
  subst r r'. unfold OPEN_KEY in E1. simpl in E1. injection E1 as E1.
  assert (E1' : k +:+ CLOSE_KEY_ASSIGN +:+ rest
                = series_key ds +:+ CLOSE_KEY_ASSIGN +:+ r'') by exact E1.
  apply key_assign_unique in E1' as [_ <-]; [| exact Hk |].
  - rewrite (plus_none_head _ _ Hrest) in E4. discriminate.
  - unfold series_key. simpl.
    apply (all_chars_impl Py.isdecimal); [apply isdecimal_not_quote | exact Hds].
Qed.

(** A pattern that starts with an opening bracket, on a line whose only
    opening bracket is that of the key, can only match at the key. *)
Lemma search_at_key {A : Type} (m : string -> option A) (pre k rest : string) :
  (forall s x, m s = Some x -> exists t, s = String "[" t) ->
  Py.count "[" pre = O -> Py.count "[" k = O -> Py.count "[" rest = O ->
  Re.search m (assign_line pre k rest)
  = m (OPEN_KEY +:+ k +:+ CLOSE_KEY_ASSIGN +:+ rest).
Proof.
  intros Hm Hpre Hk Hrest. unfold assign_line.
  rewrite (search_skip m "[" pre _ Hm Hpre).
  destruct (m (OPEN_KEY +:+ k +:+ CLOSE_KEY_ASSIGN +:+ rest)) as [x|] eqn:E.
  - now apply search_here.
  - apply search_none. intros p suf Hs.
    destruct (m suf) as [x|] eqn:E2; [|reflexivity].
    destruct (Hm _ _ E2) as [t ->].
    assert (Hp : Py.count "[" p = O).
    { apply (f_equal (Py.count "[")) in Hs. unfold OPEN_KEY, CLOSE_KEY_ASSIGN in Hs.
      rewrite ?count_app in Hs. simpl in Hs. rewrite ?count_app in Hs.
      simpl in Hs. lia. }
    unfold OPEN_KEY in Hs. cbn [String.append] in Hs.
    apply (first_bracket_unique EmptyString p) in Hs as [<- Hs];
      [| reflexivity | exact Hp].
    rewrite <- Hs in E2. unfold OPEN_KEY in E. cbn [String.append] in E.
    congruence.
Qed.

Lemma assign_line_not_close (pre k rest : string) :
  is_close (assign_line pre k rest) = false.
Proof.
  destruct (is_close _) eqn:E; [|reflexivity].
  apply is_close_no_bracket in E. unfold assign_line, OPEN_KEY in E.
  rewrite count_app in E. simpl in E. lia.
Qed.

Lemma assign_line_not_open (pre k rest : string) :
  Py.count "[" pre = O -> Py.all_chars not_quote k = true ->
  (forall r, rest <> String "{" r) ->
  item_name_line (assign_line pre k rest) = None.
Proof.
  intros Hpre Hk Hrest. unfold item_name_line.
  destruct (item_name_match _) as [m|] eqn:E; [exfalso | reflexivity].
  apply item_name_match_spec in E as (ws & Hws & r & Hline & _ & Hq).
  unfold assign_line, OPEN_KEY in Hline. cbn [String.append] in Hline.
  apply first_bracket_unique in Hline as [_ Hx];
    [| exact Hpre | now apply (all_chars_count0 Py.isspace)].
  injection Hx as Hx.
  assert (S1 : Re.span not_quote (k +:+ CLOSE_KEY_ASSIGN +:+ rest)
               = (k, CLOSE_KEY_ASSIGN +:+ rest)) by (now apply span_app).
  assert (S2 : Re.span not_quote (m +:+ CLOSE_KEY_BRACE +:+ r)
               = (m, CLOSE_KEY_BRACE +:+ r)) by (now apply span_app).
  assert (Hx' : m +:+ CLOSE_KEY_BRACE +:+ r = k +:+ CLOSE_KEY_ASSIGN +:+ rest)
    by (symmetry; exact Hx).
  rewrite <- Hx', S2 in S1. injection S1 as _ Htail.
  unfold CLOSE_KEY_BRACE, CLOSE_KEY_ASSIGN in Htail. simpl in Htail.
  apply (Hrest r). congruence.
Qed.

Lemma extract_fields_get_scan (line v : string) (data : dict Z) :
  scan_match line = Some v ->
  dict_get "lastScan" (extract_fields line data) = Some (Py.int v).
Proof.
  intros Hs. unfold extract_fields. rewrite Hs.
  destruct (hist_match line) as [[k' v']|] eqn:Eh.
  - unfold hist_match in Eh. apply search_matches in Eh as (p & suf & _ & Eh).
    apply hist_here_shape in Eh as [(ds & -> & _) _].
    rewrite dict_get_set_neq by (unfold series_key; discriminate).
    destruct (mr_match line);
      [rewrite dict_get_set_neq by discriminate|]; apply dict_get_set_eq.
  - destruct (mr_match line);
      [rewrite dict_get_set_neq by discriminate|]; apply dict_get_set_eq.
Qed.

Lemma extract_fields_get_mr (line v : string) (data : dict Z) :
  mr_match line = Some v ->
  dict_get "mr" (extract_fields line data) = Some (Py.int v).
Proof.
  intros Hs. unfold extract_fields. rewrite Hs.
  destruct (hist_match line) as [[k' v']|] eqn:Eh; [|apply dict_get_set_eq].
  unfold hist_match in Eh. apply search_matches in Eh as (p & suf & _ & Eh).
  apply hist_here_shape in Eh as [(ds & -> & _) _].
  rewrite dict_get_set_neq by (unfold series_key; discriminate).
  apply dict_get_set_eq.
Qed.

Lemma fixed_match_assign (key pre value rest : string) :
  Py.all_chars not_quote key = true ->
  Py.count "[" pre = O ->
  value <> EmptyString -> Py.all_chars Py.isdecimal value = true ->
  Re.head_fails Py.isdecimal rest ->
  Re.search (fixed_field_here key) (assign_line pre key (value +:+ rest))
  = Some value.
Proof.
  intros Hkey Hpre Hv1 Hv2 Hrest. unfold assign_line.
  rewrite (search_skip _ "[" pre _ (fixed_field_here_bracket key) Hpre).
  apply search_here. rewrite (fixed_field_here_assign key key _ Hkey Hkey).
  rewrite String.eqb_refl.
  assert (E : Re.plus Py.isdecimal (value +:+ rest) = Some (value, rest))
    by (apply plus_spec; now repeat split).
  now rewrite E.
Qed.

(** X9. A line that assigns a number to the bracket-quoted key lastScan
    or mr, the key being the first bracket of the line, is a field line of
    the open entity: the accumulator holds under that key the integer
    value of the digits that follow the assignment, up to the first
    character that is not a digit, and the projected record carries it in
    the field of the same name. *)
Theorem X9_fixed_field_stored_and_projected
    (k pre value rest : string) (its : dict (dict Z)) (n : string) (data : dict Z) :
  fixed_key k ->
  Py.count "[" pre = O ->
  value <> EmptyString -> Py.all_chars Py.isdecimal value = true ->
  Re.head_fails Py.isdecimal rest ->
  n <> EmptyString ->
  step (mk_state its (Some n) data) (assign_line pre k (value +:+ rest))
  = mk_state its (Some n)
      (extract_fields (assign_line pre k (value +:+ rest)) data) /\
  dict_get k (extract_fields (assign_line pre k (value +:+ rest)) data)
  = Some (Py.int value) /\
  (k = "lastScan" ->
   lastScan (project_item n
               (extract_fields (assign_line pre k (value +:+ rest)) data))
   = Py.int value) /\
  (k = "mr" ->
   mr (project_item n
         (extract_fields (assign_line pre k (value +:+ rest)) data))
   = Py.int value).
Proof.
  intros Hk Hpre Hv1 Hv2 Hrest Hn.
  assert (Hq : Py.all_chars not_quote k = true)
    by (destruct Hk as [-> | ->]; reflexivity).
  assert (Hget : dict_get k
                   (extract_fields (assign_line pre k (value +:+ rest)) data)
                 = Some (Py.int value)).
  { destruct Hk as [-> | ->].
    - apply extract_fields_get_scan. unfold scan_match.
      now apply fixed_match_assign.
    - apply extract_fields_get_mr. unfold mr_match.
      now apply fixed_match_assign. }
  split; [|split; [exact Hget | split]].
  - apply step_interior; [exact Hn|].
    unfold interior, closes, is_open.
    rewrite assign_line_not_close, assign_line_not_open; try assumption;
      [reflexivity|].
    intros r Hr. destruct value as [|d v]; [now destruct Hv1|].
    simpl in Hr. injection Hr as -> _. simpl in Hv2. discriminate.
  - intros ->. cbn [lastScan project_item]. unfold dict_get_default.
    now rewrite Hget.
  - intros ->. cbn [mr project_item]. unfold dict_get_default.
    now rewrite Hget.
Qed.

Lemma X9_witness :
  step widget_open fraction_line = mk_state [] (Some "Widget") [("mr", 12)] /\
  mr (project_item "Widget" (extract_fields fraction_line [("mr", 5000)])) = 12.
Proof.
  destruct (X9_fixed_field_stored_and_projected
              "mr" "   " "12" ".5," [] "Widget" [("mr", 5000)])
    as (Hstep & _ & _ & Hmr).
  - right. reflexivity.
  - reflexivity.
  - discriminate.
  - reflexivity.
  - reflexivity.
  - discriminate.
  - split; [exact Hstep | exact (Hmr eq_refl)].
Defined.

(** X10. A line whose only opening bracket is that of a quoted key, and
    on which the assignment is not followed by a digit (a sign, a quoted
    string, a word), holds no field: the accumulator is unchanged, and
    unless the assignment is followed by an opening brace the open entity
    stays as it is. *)
Theorem X10_value_without_digit_ignored
    (pre k rest : string) (its : dict (dict Z)) (n : string) (data : dict Z) :
  Py.count "[" pre = O -> Py.count "[" k = O -> Py.count "[" rest = O ->
  Py.all_chars not_quote k = true ->
  Re.head_fails Py.isdecimal rest ->
  has_field (assign_line pre k rest) = false /\
  extract_fields (assign_line pre k rest) data = data /\
  (n <> EmptyString -> (forall r, rest <> String "{" r) ->
   step (mk_state its (Some n) data) (assign_line pre k rest)
   = mk_state its (Some n) data).
Proof.
  intros Hpre Hk Hrest Hq Hhead.
  assert (Hf : has_field (assign_line pre k rest) = false).
  { unfold has_field, scan_match, mr_match, hist_match.
    rewrite !search_at_key; try assumption;
      try apply fixed_field_here_bracket; try apply hist_here_bracket.
    rewrite !fixed_field_here_assign by (assumption || reflexivity).
    rewrite hist_here_assign by assumption.
    rewrite (plus_none_head _ _ Hhead).
    now destruct (String.eqb "lastScan" k), (String.eqb "mr" k). }
  split; [exact Hf | split; [now apply extract_no_field|]].
  intros Hn Hbrace.
  rewrite step_interior; [now rewrite extract_no_field | exact Hn |].
  unfold interior, closes, is_open.
  now rewrite assign_line_not_close, assign_line_not_open.
Qed.

Lemma X10_witness :
  has_field negative_line = false /\
  step widget_open negative_line = widget_open.
Proof.
  destruct (X10_value_without_digit_ignored
              "   " "mr" "-5," [] "Widget" [("mr", 5000)])
    as (Hf & _ & Hstep); try reflexivity.
  split; [exact Hf|]. apply Hstep; [discriminate | intros r; discriminate].
Defined.

(** ** What [main] writes and prints *)

Lemma dict_get_in (k : string) (v : Z) (d : dict Z) :
  dict_get k d = Some v -> In (k, v) d.
Proof.
  induction d as [|[k0 v0] d IH]; simpl; [discriminate|].
  destruct (String.eqb_spec k0 k) as [->|Hne].
  - intros [= ->]. now left.
  - intros H. right. now apply IH.
Qed.

Lemma field_key_history (k : string) :
  field_key k ->
  is_history_key k = negb (String.eqb k "lastScan" || String.eqb k "mr") /\
  Py.startswith_char "H" k = is_history_key k.
Proof.
  intros [-> | [-> | (ds & -> & Hne & Hall)]]; [now split | now split |].
  rewrite (series_key_is_history_key ds Hne Hall). now split.
Qed.

(** X11. The history map of a written record is the parsed record
    without its two fixed fields: every other field of the record is in
    the history map under the same name with the same value, and the
    history map holds nothing else. *)
Theorem X11_history_is_record_without_fixed_fields
    (content n : string) (d : dict Z) (k : string) :
  In (n, d) (result_items (parse_lua_file content)) ->
  dict_get k (history (project_item n d))
  = if String.eqb k "lastScan" || String.eqb k "mr" then None else dict_get k d.
Proof.
  intros Hin. apply parse_records_ok in Hin as [_ [Hnd Hall]].
  cbn [history project_item]. rewrite history_of_get by exact Hnd.
  destruct (dict_get k d) as [v|] eqn:E.
  - apply dict_get_in, Hall in E as [Hk _].
    apply field_key_history in Hk as [-> _].
    now destruct (String.eqb k "lastScan" || String.eqb k "mr").
  - now destruct (is_history_key k), (String.eqb k "lastScan" || String.eqb k "mr").
Qed.

Lemma X11_witness :
  dict_get "H5554"
    (history (project_item "Widget"
       [("lastScan", 12345); ("mr", 5000); ("H5553", 4800); ("H5554", 5100)]))
  = Some 5100.
Proof.
  rewrite (X11_history_is_record_without_fixed_fields
             minimal_file "Widget" _ "H5554" minimal_widget_record).
  reflexivity.
Defined.

(** X12. [main] ends with the KeyError of line 95 exactly when the
    literal is not found: it has then printed the notice of
    [parse_lua_file] and the realm as Unknown, and has written nothing.
    Otherwise it writes the projection of the parse result, and the total
    that it prints is the number of records written. *)
Theorem X12_main_raises_iff_literal_not_found (content : string) :
  (~ literal_delimited content ->
   main_run content
   = RaisedKeyError
       [ "Parsing Auctionator.lua...";
         "Could not find AUCTIONATOR_PRICE_DATABASE";
         Py.nl +:+ "Realm: Unknown" ]) /\
  (literal_delimited content ->
   exists stdout out,
     main_run content = Finished stdout out /\
     main_output (parse_lua_file content) = Some out /\
     In ("Total items: " +:+ Py.str (Z.of_nat (List.length (out_items out))))
        stdout /\
     ~ In "Could not find AUCTIONATOR_PRICE_DATABASE" stdout).
Proof.
  unfold main_run, parse_stdout. split.
  - intros H. rewrite <- database_search_delimited in H.
    unfold parse_lua_file.
    destruct (database_search content); [now destruct H | reflexivity].
  - intros H. apply database_search_delimited in H.
    unfold parse_lua_file.
    destruct (database_search content) as [lua|]; [|now destruct H].
    unfold parse_literal. cbn [main_output result_items realm_shown].
    eexists. eexists. split; [reflexivity | split; [reflexivity | split]].
    + cbn [out_items]. rewrite length_map. cbn [app In].
      right. right. left. reflexivity.
    + cbn [app In]. intros [H0 | [H0 | [H0 | [H0 | [H0 | H0]]]]];
        try (simpl in H0; discriminate).
      apply in_flat_map in H0 as (smp & _ & Hin).
      destruct Hin as [Hin | [Hin | Hin]]; try (simpl in Hin; discriminate).
      apply in_map_iff in Hin as (kv & Hin & _). simpl in Hin. discriminate.
Qed.

Lemma X12_witness :
  main_run no_end_marker_file
  = RaisedKeyError
      [ "Parsing Auctionator.lua...";
        "Could not find AUCTIONATOR_PRICE_DATABASE";
        Py.nl +:+ "Realm: Unknown" ].
Proof.
  apply (proj1 (X12_main_raises_iff_literal_not_found no_end_marker_file)).
  intros H. apply literal_delimited_in_order, markers_in_orderb_spec in H.
  vm_compute in H. discriminate.
Defined.

(** ** Amounts below one gold *)

(** X13. For an amount below 10000, negative ones included, the display
    has no gold part and is the display of the amount reduced modulo
    10000: the sign and the size of a negative amount are lost. *)
Theorem X13_display_below_one_gold (copper : Z) :
  copper < 10000 ->
  convert_copper_to_gold copper
  = (if 0 <? silver_of copper
     then Py.str (silver_of copper) +:+ "s "
          +:+ Py.str (copper_remainder_of copper) +:+ "c"
     else Py.str (copper_remainder_of copper) +:+ "c") /\
  convert_copper_to_gold copper = convert_copper_to_gold (copper mod 10000).
Proof.
  intros Hc.
  assert (Hg : forall c, c < 10000 -> (0 <? gold_of c) = false).
  { intros c Hlt. unfold gold_of. apply Z.ltb_ge.
    assert (c / 10000 < 1) by (apply Z.div_lt_upper_bound; lia). lia. }
  assert (Hm := Z.mod_pos_bound copper 10000 ltac:(lia)).
  assert (Hs : silver_of (copper mod 10000) = silver_of copper).
  { unfold silver_of. now rewrite Z.mod_mod by lia. }
  assert (Hr : copper_remainder_of (copper mod 10000) = copper_remainder_of copper).
  { unfold copper_remainder_of. apply Z.mod_mod_divide. exists 100. reflexivity. }
  unfold convert_copper_to_gold.
  rewrite (Hg copper Hc), (Hg (copper mod 10000)) by lia.
  now rewrite Hs, Hr.
Qed.

Lemma X13_witness :
  convert_copper_to_gold (-1) = "99s 99c" /\
  convert_copper_to_gold (-1) = convert_copper_to_gold 9999.
Proof.
  destruct (X13_display_below_one_gold (-1)) as [H1 H2]; [lia|].
  split; [rewrite H1; vm_compute; reflexivity | exact H2].
Defined.

(** ** The sampled entities *)

Lemma sample_loop_firstn (its : dict (dict Z)) (count : Z) :
  0 <= count < 5 ->
  sample_loop its count
  = firstn (Z.to_nat (5 - count))
      (map (fun kv => sample_of (fst kv) (snd kv))
           (filter (fun kv => has_price_history (snd kv)) its)).
Proof.
  revert count. induction its as [|[n d] its IH]; intros count Hc;
    cbn [sample_loop filter map fst snd].
  - now rewrite firstn_nil.
  - destruct (has_price_history d); [|now apply IH].
    replace (Z.to_nat (5 - count)) with (S (Z.to_nat (5 - (count + 1)))) by lia.
    cbn [map firstn fst snd]. f_equal. destruct (Z.leb_spec 5 (count + 1)).
    + replace (Z.to_nat (5 - (count + 1))) with O by lia. reflexivity.
    + apply IH. lia.
Qed.

(** X14. The entities sampled at the end of [main] are the first five,
    in the order of the items, of those that have at least two keys
    starting with H; there are never more than five. *)
Theorem X14_samples_are_first_five (its : dict (dict Z)) :
  samples its
  = firstn 5
      (map (fun kv => sample_of (fst kv) (snd kv))
           (filter (fun kv => has_price_history (snd kv)) its)) /\
  (List.length (samples its) <= 5)%nat.
Proof.
  assert (H : samples its
              = firstn 5
                  (map (fun kv => sample_of (fst kv) (snd kv))
                       (filter (fun kv => has_price_history (snd kv)) its))).
  { unfold samples. now rewrite sample_loop_firstn by lia. }
  split; [exact H|]. rewrite H. apply firstn_le_length.
Qed.

Lemma dict_set_new {V : Type} (k : string) (v : V) (d : dict V) :
  ~ In k (dict_keys d) -> dict_set k v d = d ++ [(k, v)].
Proof.
  unfold dict_keys. induction d as [|[k0 v0] d IH]; simpl; intros H; [reflexivity|].
  destruct (String.eqb_spec k0 k) as [->|Hne]; [now destruct H; left|].
  rewrite IH; [reflexivity|]. intros Hin. apply H. now right.
Qed.

Lemma history_fold_filter (d h : dict Z) :
  NoDup (dict_keys d) ->
  (forall k, In k (dict_keys d) -> ~ In k (dict_keys h)) ->
  fold_left
    (fun h kv => if is_history_key (fst kv) then dict_set (fst kv) (snd kv) h else h)
    d h
  = h ++ filter (fun kv => is_history_key (fst kv)) d.
Proof.
  revert h. induction d as [|[k0 v0] d IH]; intros h Hnd Hdis; simpl.
  - now rewrite app_nil_r.
  - inversion Hnd as [|? ? Hnot Hnd']; subst.
    destruct (is_history_key k0) eqn:Ek.
    + rewrite dict_set_new by (apply Hdis; now left).
      rewrite IH; [now rewrite <- app_assoc | exact Hnd' |].
      intros k Hk Hin. unfold dict_keys in Hin. rewrite map_app in Hin.
      apply in_app_or in Hin as [Hin | [<- | []]].
      * apply (Hdis k); [now right | exact Hin].
      * contradiction.
    + apply IH; [exact Hnd'|]. intros k Hk. apply Hdis. now right.
Qed.

(** X15. For every record of the parse result, the keys that the sample
    lists (those starting with H, line 128) are the keys of the history map
    written for the record (line 113), in the same order. *)
Theorem X15_sample_keys_are_history_keys (content n : string) (d : dict Z) :
  In (n, d) (result_items (parse_lua_file content)) ->
  hist_keys d = dict_keys (history (project_item n d)).
Proof.
  intros Hin. apply parse_records_ok in Hin as [_ [Hnd Hall]].
  cbn [history project_item]. unfold history_of.
  rewrite history_fold_filter; [| exact Hnd | intros k _ []].
  cbn [app]. unfold hist_keys, dict_keys.
  induction d as [|[k0 v0] d IH]; [reflexivity|].
  inversion Hnd as [|? ? Hnot Hnd']; subst.
  assert (Hk0 : Py.startswith_char "H" k0 = is_history_key k0).
  { apply field_key_history. apply (Hall k0 v0). now left. }
  cbn [map filter fst]. rewrite Hk0, IH.
  - now destruct (is_history_key k0).
  - exact Hnd'.
  - intros k v Hkv. apply Hall. now right.
Qed.

Lemma X15_witness :
  hist_keys [("lastScan", 12345); ("mr", 5000); ("H5553", 4800); ("H5554", 5100)]
  = [ "H5553"; "H5554" ].
Proof.
  rewrite (X15_sample_keys_are_history_keys
             minimal_file "Widget" _ minimal_widget_record).
  reflexivity.
Defined.

(** * Series fields: the first assignment on a line, and other prefixes *)

















(** * Re-opened entities left open *)

(** C3, as stated, fails: Widget is opened twice, each time with a body
    that holds a field line, but no terminator and no entity-open line
    follows the second body; the output holds Widget once, with the fields
    of the first occurrence and not those of the second. *)
Lemma C3_counterexample :
  database_search reopened_open_file = Some (join_lines reopened_open_lines) /\
  Py.split_nl (join_lines reopened_open_lines)
  = firstn 2 reopened_open_lines
    ++ nth 2 reopened_open_lines EmptyString
    :: firstn 1 (skipn 3 reopened_open_lines)
    ++ firstn 1 (skipn 4 reopened_open_lines)
    ++ nth 5 reopened_open_lines EmptyString
    :: firstn 1 (skipn 6 reopened_open_lines)
    ++ skipn 7 reopened_open_lines /\
  item_name_line (nth 2 reopened_open_lines EmptyString) = Some "Widget" /\
  forallb interior (firstn 1 (skipn 3 reopened_open_lines)) = true /\
  existsb has_field (firstn 1 (skipn 3 reopened_open_lines)) = true /\
  item_name_line (nth 5 reopened_open_lines EmptyString) = Some "Widget" /\
  forallb interior (firstn 1 (skipn 6 reopened_open_lines)) = true /\
  existsb has_field (firstn 1 (skipn 6 reopened_open_lines)) = true /\
  forallb (fun l => negb (opens "Widget" l)) (skipn 7 reopened_open_lines) = true /\
  collect (firstn 1 (skipn 3 reopened_open_lines)) = [("mr", 1)] /\
  collect (firstn 1 (skipn 6 reopened_open_lines)) = [("mr", 2)] /\
  dict_get "Widget" (result_items (parse_lua_file reopened_open_file))
  = Some [("mr", 1)] /\
  dict_get "Widget" (result_items (parse_lua_file reopened_open_file))
  <> Some (collect (firstn 1 (skipn 6 reopened_open_lines))).
Proof.
  repeat split; try (vm_compute; reflexivity); vm_compute; discriminate.
Qed.
